(** * School Mini-Market POS API: the handlers of main.py over schemas.py

    A shallow embedding of [create_product], [update_stock] and
    [create_sale] (main.py) and of the pydantic models they build
    (schemas.py).  Python floats are binary64 numbers, so they are Rocq's
    primitive floats; the document store is a value threaded through a
    small state-and-exception monad that also records every store call. *)

From Stdlib Require Import ZArith List String Ascii Bool Lia.
From Stdlib Require Import Uint63 Floats.
Import ListNotations.

Local Open Scope string_scope.
Local Open Scope list_scope.
Local Open Scope Z_scope.

(** ** Python numbers *)

(** [float(n)] for a Python integer: the nearest binary64 number. *)
Definition float_of_int (z : Z) : float :=
  SF2Prim (binary_normalize prec emax z 0 false).

(** [num / den] rounded to the nearest integer, ties to the even one. *)
Definition half_even (num den : Z) : Z :=
  let q := num / den in
  let r := num mod den in
  match 2 * r ?= den with
  | Lt => q
  | Gt => q + 1
  | Eq => if Z.even q then q else q + 1
  end.

(** The builtin [round(x, 2)] on a float.  CPython prints the exact binary
    value of [x] with two digits after the point (correctly rounded, ties
    to even) and reads that decimal back as the nearest float; infinities
    and NaN round to themselves.  [x] is [m * 2^e]: with [0 <= e] it is an
    integer and rounds to itself; otherwise [n] is the rounded number of
    hundredths, and [n / 100] is read back by one correctly rounded
    division as long as [n] is itself a float, that is below [2^53].  From
    [2^53] hundredths on, neighbouring floats are further apart than a
    hundredth, and the float nearest to the decimal is [x] again. *)
Definition round2 (x : float) : float :=
  match Prim2SF x with
  | S754_finite s m e =>
      if 0 <=? e then x
      else
        let n := half_even (Zpos m * 100) (2 ^ (- e)) in
        if n <? 2 ^ 53 then
          let r := (of_uint63 (Uint63.of_Z n) / 100)%float in
          if s then (- r)%float else r
        else x
  | _ => x
  end.

(** The constraint [Field(..., ge=0)] on a float field. *)
Definition ge0 (x : float) : bool := (0 <=? x)%float.

(** The spec floats that compare greater than or equal to zero. *)
Definition sf_nonneg (f : spec_float) : bool :=
  match f with
  | S754_zero _ => true
  | S754_infinity s => negb s
  | S754_nan => false
  | S754_finite s _ _ => negb s
  end.

(** ** Identities *)

(** A bson ObjectId is kept by the hexadecimal digits of its bytes, in
    lower case, which is what [str] gives back: 24 digits for the twelve
    bytes of an identity a store holds. *)
Definition oid : Type := string.

Definition is_hex (c : ascii) : bool :=
  let n := N_of_ascii c in
  (((48 <=? n) && (n <=? 57)) || ((97 <=? n) && (n <=? 102))
   || ((65 <=? n) && (n <=? 70)))%N.

(** ASCII whitespace, as [bytes.fromhex] skips it. *)
Definition is_space (c : ascii) : bool :=
  let n := N_of_ascii c in
  (((9 <=? n) && (n <=? 13)) || (n =? 32))%N.

Definition lower (c : ascii) : ascii :=
  let n := N_of_ascii c in
  if ((65 <=? n) && (n <=? 90))%N then ascii_of_N (n + 32) else c.

(** [bytes.fromhex(s)], by the digits of the bytes read: two hexadecimal
    digits per byte, ASCII whitespace skipped before a byte and at the
    end.  [top] is the first digit of a byte whose second digit is
    awaited; [None] stands for the ValueError. *)
Fixpoint hex_pairs (s : string) (top : option ascii) : option string :=
  match s with
  | EmptyString =>
      match top with
      | None => Some EmptyString
      | Some _ => None
      end
  | String c r =>
      match top with
      | None =>
          if is_space c then hex_pairs r None
          else if is_hex c then hex_pairs r (Some c)
          else None
      | Some t =>
          if is_hex c
          then option_map (fun o => String (lower t) (String (lower c) o))
                          (hex_pairs r None)
          else None
      end
  end.

(** The digits of whole bytes, in lower case. *)
Fixpoint canonical (o : string) : bool :=
  match o with
  | EmptyString => true
  | String a (String b r) =>
      is_hex a && Ascii.eqb (lower a) a && is_hex b && Ascii.eqb (lower b) b
      && canonical r
  | String _ EmptyString => false
  end.

(** [ObjectId(s)] for a string [s]: a string of 24 characters that
    [bytes.fromhex] reads; [None] stands for bson's InvalidId. *)
Definition ObjectId (s : string) : option oid :=
  if Nat.eqb (String.length s) 24 then hex_pairs s None else None.

(** ** schemas.py *)

Record Product := {
  p_name : string;
  p_sku : string;
  p_price : float;
  p_stock : Z;
  p_category : option string;
  p_barcode : option string;
  p_active : bool
}.

Record SaleItem := {
  product_id : string;
  i_name : string;
  i_sku : string;
  i_price : float;
  quantity : Z;
  subtotal : float
}.

Record Sale := {
  items : list SaleItem;
  total : float;
  paid : float;
  change : float;
  customer_name : option string;
  student_ref : option string;
  payment_method : string
}.

(** ** Requests and responses of main.py *)

(** The value under ["product_id"] of a request line (a JSON object):
    absent or null, a string, or a value of another JSON type, kept by
    the text an f-string shows for it. *)
Inductive pid_value :=
| PidNull
| PidStr (s : string)
| PidOther (shown : string).

(** The value under ["quantity"]: absent, a value [int()] converts to
    [z], a text [int()] cannot read (ValueError), or null or a value of
    a type [int()] does not take (TypeError). *)
Inductive qty_value :=
| QtyAbsent
| QtyInt (z : Z)
| QtyInvalid
| QtyNull.

Record Line := {
  line_product_id : pid_value;
  line_quantity : qty_value
}.

Record SaleRequest := {
  r_items : list Line;
  r_paid : float;
  r_customer_name : option string;
  r_student_ref : option string;
  r_payment_method : string
}.

Record StockUpdate := { delta : Z }.

Record SaleResponse := {
  resp_id : string;
  resp_total : float;
  resp_paid : float;
  resp_change : float
}.

(** ** The document store *)

(** A document of the "product" collection: a dictionary, so every field
    but the identity may be absent. *)
Record ProductDoc := {
  d_id : oid;
  d_name : option string;
  d_sku : option string;
  d_price : option float;
  d_stock : option Z;
  d_category : option string;
  d_barcode : option string;
  d_active : option bool
}.

Record Store := {
  product : list ProductDoc;
  sale : list (string * Sale)
}.

(** The module-level handle [db]: [None] when the store is not
    configured. *)
Definition Database : Type := option Store.

Inductive document :=
| DProduct (p : Product)
| DSale (s : Sale).

(** Every call the handlers make on the store, in the order made. *)
Inductive event :=
| FindOneActive (o : oid)
| FindOneActiveNew
| FindOneById (o : oid)
| FindBySku (k : string)
| UpdateOneInc (o : oid) (d : Z)
| CreateDocument (collection : string) (doc : document).

Inductive exn :=
| HTTPException (status_code : Z) (detail : string)
| ValidationError
| ValueError
| TypeError
| InvalidId
| NotImplementedError
| StorageError.

Inductive result (A : Type) :=
| Ok (a : A)
| Raise (e : exn).
Arguments Ok {A} a.
Arguments Raise {A} e.

(** A handler step: from the store to the store after it, the store calls
    it made, and its value or the exception it raised. *)
Definition M (A : Type) : Type := Database -> Database * list event * result A.

Definition ret {A} (a : A) : M A := fun db => (db, [], Ok a).

Definition raise {A} (e : exn) : M A := fun db => (db, [], Raise e).

Definition bind {A B} (m : M A) (f : A -> M B) : M B :=
  fun db =>
    match m db with
    | (db1, t1, Ok a) => let '(db2, t2, r) := f a db1 in (db2, t1 ++ t2, r)
    | (db1, t1, Raise e) => (db1, t1, Raise e)
    end.

Notation "x <- m ;; k" := (bind m (fun x => k))
  (at level 61, m at next level, right associativity).
Notation "m ;;; k" := (bind m (fun _ => k))
  (at level 61, right associativity).

Definition is_inc (e : event) : bool :=
  match e with
  | UpdateOneInc _ _ => true
  | _ => false
  end.

Definition is_find (e : event) : bool :=
  match e with
  | FindOneActive _ | FindOneActiveNew | FindOneById _ | FindBySku _ => true
  | _ => false
  end.

(** [db is None] *)
Definition db_is_none : M bool :=
  fun db => (db, [], Ok (match db with None => true | Some _ => false end)).

(** The truth value of [db], as [if db] takes it: [None] is false, and
    a pymongo [Database] refuses the test with NotImplementedError
    ("Database objects do not implement truth value testing"). *)
Definition db_truth : M bool :=
  fun db =>
    match db with
    | None => (db, [], Ok false)
    | Some _ => (db, [], Raise NotImplementedError)
    end.

Definition active_is_true (d : ProductDoc) : bool :=
  match d_active d with Some true => true | _ => false end.

Definition sku_is (k : string) (d : ProductDoc) : bool :=
  match d_sku d with Some k' => String.eqb k' k | None => false end.

(** [db["product"].find_one({"_id": oid, "active": True})] *)
Definition find_one_active (o : oid) : M (option ProductDoc) :=
  fun db =>
    match db with
    | None => (db, [], Raise TypeError)
    | Some s =>
        (db, [FindOneActive o],
         Ok (find (fun d => String.eqb (d_id d) o && active_is_true d) (product s)))
    end.

(** [db["product"].find_one({"_id": ObjectId(None), "active": True})]:
    [ObjectId(None)] is a newly generated identity, which no stored
    document carries. *)
Definition find_one_active_new : M (option ProductDoc) :=
  fun db =>
    match db with
    | None => (db, [], Raise TypeError)
    | Some s => (db, [FindOneActiveNew], Ok None)
    end.

(** [db["product"].find_one({"_id": oid})] *)
Definition find_one_by_id (o : oid) : M (option ProductDoc) :=
  fun db =>
    match db with
    | None => (db, [], Raise TypeError)
    | Some s =>
        (db, [FindOneById o], Ok (find (fun d => String.eqb (d_id d) o) (product s)))
    end.

Definition stock_or_0 (d : ProductDoc) : Z :=
  match d_stock d with Some n => n | None => 0 end.

Definition inc_stock (dl : Z) (d : ProductDoc) : ProductDoc :=
  {| d_id := d_id d; d_name := d_name d; d_sku := d_sku d;
     d_price := d_price d; d_stock := Some (stock_or_0 d + dl);
     d_category := d_category d; d_barcode := d_barcode d;
     d_active := d_active d |}.

(** [$inc] on the first document with the identity; the count of matched
    documents comes with the collection. *)
Fixpoint inc_first (o : oid) (dl : Z) (docs : list ProductDoc)
  : list ProductDoc * Z :=
  match docs with
  | [] => ([], 0)
  | d :: rest =>
      if String.eqb (d_id d) o then (inc_stock dl d :: rest, 1)
      else let '(rest', n) := inc_first o dl rest in (d :: rest', n)
  end.

(** [db["product"].update_one({"_id": oid}, {"$inc": {"stock": delta}})],
    giving [matched_count]. *)
Definition update_one_inc (o : oid) (dl : Z) : M Z :=
  fun db =>
    match db with
    | None => (db, [], Raise TypeError)
    | Some s =>
        let '(docs, n) := inc_first o dl (product s) in
        (Some {| product := docs; sale := sale s |}, [UpdateOneInc o dl], Ok n)
    end.

(** [db["product"].find({"sku": sku})], as a list *)
Definition find_by_sku (k : string) : M (list ProductDoc) :=
  fun db =>
    match db with
    | None => (db, [], Raise TypeError)
    | Some s => (db, [FindBySku k], Ok (filter (sku_is k) (product s)))
    end.

(** ** main.py *)

Section Handlers.

(** [database.create_document] writes one document and gives its new
    identity.  database.py is not among the sources, so the write is a
    parameter: from the handle, the collection and the document to the
    identity and the store after the write, or [None] when it raises
    (a single document write is all or nothing). *)
Variable insert_document :
  Database -> string -> document -> option (string * Database).

Definition create_document (collection : string) (data : document)
  : M string :=
  fun db =>
    match insert_document db collection data with
    | Some (new_id, db') => (db', [CreateDocument collection data], Ok new_id)
    | None => (db, [CreateDocument collection data], Raise StorageError)
    end.

(** POST /api/products *)
Definition create_product (p : Product) : M string :=
  truth <- db_truth ;;
  existing <- (if truth then find_by_sku (p_sku p) else ret []) ;;
  match existing with
  | _ :: _ => raise (HTTPException 400 "SKU already exists")
  | [] => create_document "product" (DProduct p)
  end.

(** POST /api/products/{product_id}/stock *)
Definition update_stock (pid : string) (payload : StockUpdate)
  : M ProductDoc :=
  none <- db_is_none ;;
  if none then raise (HTTPException 500 "Database not configured")
  else
    match ObjectId pid with
    | None => raise (HTTPException 400 "Invalid product id")
    | Some o =>
        matched_count <- update_one_inc o (delta payload) ;;
        if matched_count =? 0
        then raise (HTTPException 404 "Product not found")
        else
          prod <- find_one_by_id o ;;
          match prod with
          | Some d => ret d
          | None => raise TypeError
          end
    end.

(** [int(line.get("quantity", 1))] *)
Definition int_of_quantity (q : qty_value) : M Z :=
  match q with
  | QtyAbsent => ret 1
  | QtyInt z => ret z
  | QtyInvalid => raise ValueError
  | QtyNull => raise TypeError
  end.

(** [ObjectId(pid)] under its [try], then the [find_one] on active
    products. *)
Definition lookup_product (pid : pid_value) : M (option ProductDoc) :=
  match pid with
  | PidNull => find_one_active_new
  | PidStr s =>
      match ObjectId s with
      | Some o => find_one_active o
      | None => raise (HTTPException 400 (String.append "Invalid product id: " s))
      end
  | PidOther shown =>
      raise (HTTPException 400 (String.append "Invalid product id: " shown))
  end.

(** [prod.get('name')] inside an f-string *)
Definition show_name (d : ProductDoc) : string :=
  match d_name d with Some n => n | None => "None" end.

(** [float(prod.get("price", 0))] *)
Definition price_or_0 (d : ProductDoc) : float :=
  match d_price d with Some x => x | None => float_of_int 0 end.

(** The constructor of [SaleItem], with the constraints of its fields. *)
Definition new_SaleItem (pid : string) (name sku : option string)
    (price : float) (qty : Z) (sub : float) : M SaleItem :=
  match name, sku with
  | Some n, Some k =>
      if (ge0 price && (1 <=? qty) && ge0 sub)%bool
      then ret {| product_id := pid; i_name := n; i_sku := k;
                  i_price := price; quantity := qty; subtotal := sub |}
      else raise ValidationError
  | _, _ => raise ValidationError
  end.

(** The constructor of [Sale], with the constraints of its fields. *)
Definition new_Sale (its : list SaleItem) (tot pd chg : float)
    (cn sr : option string) (pm : string) : M Sale :=
  if (ge0 tot && ge0 pd && ge0 chg)%bool
  then ret {| items := its; total := tot; paid := pd; change := chg;
              customer_name := cn; student_ref := sr;
              payment_method := pm |}
  else raise ValidationError.

(** The body of the loop over [request.items], for one line. *)
Definition sale_line (line : Line) : M SaleItem :=
  let pid := line_product_id line in
  qty <- int_of_quantity (line_quantity line) ;;
  found <- lookup_product pid ;;
  match found with
  | None => raise (HTTPException 404 "Product not found or inactive")
  | Some prod =>
      if stock_or_0 prod <? qty
      then raise (HTTPException 400
                    (String.append "Insufficient stock for " (show_name prod)))
      else
        let price := price_or_0 prod in
        let sub := round2 (price * float_of_int qty) in
        new_SaleItem (d_id prod) (d_name prod) (d_sku prod) price qty sub
  end.

(** The loop over [request.items], from the items and the running total
    so far. *)
Fixpoint sale_lines (lines : list Line) (its : list SaleItem) (tot : float)
  : M (list SaleItem * float) :=
  match lines with
  | [] => ret (its, tot)
  | line :: rest =>
      it <- sale_line line ;;
      sale_lines rest (its ++ [it]) (tot + subtotal it)%float
  end.

(** The loop that deducts the stock of every item. *)
Fixpoint deduct_stock (its : list SaleItem) : M unit :=
  match its with
  | [] => ret tt
  | it :: rest =>
      match ObjectId (product_id it) with
      | Some o => update_one_inc o (- quantity it) ;;; deduct_stock rest
      | None => raise InvalidId
      end
  end.

(** POST /api/sales *)
Definition create_sale (request : SaleRequest) : M SaleResponse :=
  none <- db_is_none ;;
  if none then raise (HTTPException 500 "Database not configured")
  else
    built <- sale_lines (r_items request) [] 0%float ;;
    let its := fst built in
    let tot := round2 (snd built) in
    if (r_paid request <? tot)%float
    then raise (HTTPException 400 "Paid amount is less than total")
    else
      let chg := round2 (r_paid request - tot) in
      sl <- new_Sale its tot (r_paid request) chg (r_customer_name request)
              (r_student_ref request) (r_payment_method request) ;;
      sale_id <- create_document "sale" (DSale sl) ;;
      deduct_stock its ;;;
      ret {| resp_id := sale_id; resp_total := tot;
             resp_paid := r_paid request; resp_change := chg |}.

End Handlers.

(** ** The vocabulary of the properties *)

(** The running total of the loop: the floats added one by one, from
    [0.0]. *)
Definition sum_floats (xs : list float) : float :=
  fold_left PrimFloat.add xs 0%float.

(** The unit price times the quantity of an item, not rounded. *)
Definition raw_amount (it : SaleItem) : float :=
  (i_price it * float_of_int (quantity it))%float.

(** The quantity a line asks for, when [int()] gives one. *)
Definition requested (line : Line) : option Z :=
  match line_quantity line with
  | QtyAbsent => Some 1
  | QtyInt z => Some z
  | QtyInvalid => None
  | QtyNull => None
  end.

(** The active product a line refers to, in a store. *)
Definition stored_product (db : Database) (pid : pid_value)
  : option ProductDoc :=
  match db, pid with
  | Some s, PidStr str =>
      match ObjectId str with
      | Some o =>
          find (fun d => String.eqb (d_id d) o && active_is_true d) (product s)
      | None => None
      end
  | _, _ => None
  end.

(** An item is the snapshot of the product its line refers to, for the
    quantity the line asks for. *)
Definition line_item (db : Database) (line : Line) (it : SaleItem) : Prop :=
  exists prod,
    stored_product db (line_product_id line) = Some prod /\
    requested line = Some (quantity it) /\
    i_price it = price_or_0 prod /\
    product_id it = d_id prod /\
    subtotal it = round2 (raw_amount it).

(** The total of a successful sale is the rounded sum of the products
    price times quantity, none of them rounded on its own. *)
Definition total_of_raw_amounts
    (ins : Database -> string -> document -> option (string * Database))
    (db : Database) (request : SaleRequest) : Prop :=
  forall db' tr resp sl,
    create_sale ins request db = (db', tr, Ok resp) ->
    In (CreateDocument "sale" (DSale sl)) tr ->
    resp_total resp = round2 (sum_floats (map raw_amount (items sl))).

(** Whenever a line asks for more than the stock of its product, the
    request fails with the 400 that names the product. *)
Definition any_short_line_is_insufficient_stock
    (ins : Database -> string -> document -> option (string * Database))
    (db : Database) (request : SaleRequest) : Prop :=
  forall line prod qty,
    In line (r_items request) ->
    stored_product db (line_product_id line) = Some prod ->
    requested line = Some qty ->
    stock_or_0 prod < qty ->
    exists db' tr,
      create_sale ins request db
      = (db', tr,
         Raise (HTTPException 400
                  (String.append "Insufficient stock for " (show_name prod)))).

(** Whenever a line has a well-formed identity that no active product
    carries, the request fails with the 404. *)
Definition any_unknown_line_is_not_found
    (ins : Database -> string -> document -> option (string * Database))
    (db : Database) (request : SaleRequest) : Prop :=
  forall line str o,
    In line (r_items request) ->
    line_product_id line = PidStr str ->
    ObjectId str = Some o ->
    stored_product db (line_product_id line) = None ->
    exists db' tr,
      create_sale ins request db
      = (db', tr, Raise (HTTPException 404 "Product not found or inactive")).

(** The [Sale] a request builds from the items and the running total of
    its loop. *)
Definition sale_of (request : SaleRequest) (its : list SaleItem)
    (tot : float) : Sale :=
  {| items := its; total := round2 tot; paid := r_paid request;
     change := round2 (r_paid request - round2 tot);
     customer_name := r_customer_name request;
     student_ref := r_student_ref request;
     payment_method := r_payment_method request |}.

(** The answer to a request once its sale is written under [new_id]. *)
Definition response_of (request : SaleRequest) (tot : float)
    (new_id : string) : SaleResponse :=
  {| resp_id := new_id; resp_total := round2 tot;
     resp_paid := r_paid request;
     resp_change := round2 (r_paid request - round2 tot) |}.

(** The constraints of the fields of [Sale], on that sale. *)
Definition sale_fields_valid (request : SaleRequest) (tot : float) : bool :=
  (ge0 (round2 tot) && ge0 (r_paid request)
   && ge0 (round2 (r_paid request - round2 tot)))%bool.

(** The first product with an identity, active or not. *)
Definition product_by_id (s : Store) (o : oid) : option ProductDoc :=
  find (fun d => String.eqb (d_id d) o) (product s).

(** ** An in-memory store *)

Definition hex_digit (n : N) : ascii :=
  if (n <? 10)%N then ascii_of_N (48 + n) else ascii_of_N (87 + n).

Fixpoint hex_of (digits : nat) (n : N) (acc : string) : string :=
  match digits with
  | O => acc
  | S k => hex_of k (n / 16)%N (String (hex_digit (n mod 16)%N) acc)
  end.

Definition fresh_id (s : Store) : string :=
  hex_of 24 (N.of_nat (List.length (product s) + List.length (sale s))) "".

Definition doc_of_product (new_id : oid) (p : Product) : ProductDoc :=
  {| d_id := new_id; d_name := Some (p_name p); d_sku := Some (p_sku p);
     d_price := Some (p_price p); d_stock := Some (p_stock p);
     d_category := p_category p; d_barcode := p_barcode p;
     d_active := Some (p_active p) |}.

(** Modelled from the spec: database.create_document is not among the
    sources.  The spec has it persist the document and obtain a new
    identity, and fail when the store is not there. *)
Definition memory_insert (db : Database) (collection : string)
    (data : document) : option (string * Database) :=
  match db with
  | None => None
  | Some s =>
      let new_id := fresh_id s in
      match data with
      | DProduct p =>
          Some (new_id,
                Some {| product := product s ++ [doc_of_product new_id p];
                        sale := sale s |})
      | DSale sl =>
          Some (new_id,
                Some {| product := product s;
                        sale := sale s ++ [(new_id, sl)] |})
      end
  end.

(** A store whose writes all fail. *)
Definition failing_insert (db : Database) (collection : string)
    (data : document) : option (string * Database) := None.

(** ** A shop to run the handlers on *)

Definition apple_id : string := "65a1f0000000000000000001".
Definition gum_id : string := "65a1f0000000000000000002".
Definition retired_id : string := "65a1f0000000000000000003".
Definition loose_id : string := "65a1f0000000000000000004".
Definition unknown_id : string := "65a1f00000000000000000ff".
Definition spaced_id : string := "65 a1 f0 00 00 00 00 01 ".

Definition apple : ProductDoc :=
  {| d_id := apple_id; d_name := Some "Apple"; d_sku := Some "A1";
     d_price := Some 2.5%float; d_stock := Some 10;
     d_category := Some "snacks"; d_barcode := None; d_active := Some true |}.

Definition gum : ProductDoc :=
  {| d_id := gum_id; d_name := Some "Gum"; d_sku := Some "G1";
     d_price := Some 1.125%float; d_stock := Some 2;
     d_category := None; d_barcode := None; d_active := Some true |}.

Definition retired : ProductDoc :=
  {| d_id := retired_id; d_name := Some "Retired"; d_sku := Some "R1";
     d_price := Some 1%float; d_stock := Some 5;
     d_category := None; d_barcode := None; d_active := Some false |}.

Definition loose : ProductDoc :=
  {| d_id := loose_id; d_name := Some "Loose"; d_sku := Some "L1";
     d_price := Some 1%float; d_stock := None;
     d_category := None; d_barcode := None; d_active := Some true |}.

Definition shop : Store :=
  {| product := [apple; gum; retired; loose]; sale := [] |}.

Definition line_of (pid : string) (q : Z) : Line :=
  {| line_product_id := PidStr pid; line_quantity := QtyInt q |}.

Definition request_of (lines : list Line) (pd : float) : SaleRequest :=
  {| r_items := lines; r_paid := pd; r_customer_name := None;
     r_student_ref := None; r_payment_method := "cash" |}.

(** The requests the handlers are run on. *)
Definition two_gums : SaleRequest :=
  request_of [line_of gum_id 1; line_of gum_id 1] 10%float.

Definition three_apples : SaleRequest :=
  request_of [line_of apple_id 3] 10%float.

Definition three_apples_for_five : SaleRequest :=
  request_of [line_of apple_id 3] 5%float.

Definition apple_then_three_gums : SaleRequest :=
  request_of [line_of apple_id 1; line_of gum_id 3] 10%float.

Definition unknown_then_three_gums : SaleRequest :=
  request_of [line_of unknown_id 1; line_of gum_id 3] 10%float.

Definition three_gums_then_unknown : SaleRequest :=
  request_of [line_of gum_id 3; line_of unknown_id 1] 10%float.

Definition apple_then_retired : SaleRequest :=
  request_of [line_of apple_id 1; line_of retired_id 1] 10%float.

Definition apple_then_loose : SaleRequest :=
  request_of [line_of apple_id 1; line_of loose_id 1] 10%float.

Definition no_line : SaleRequest := request_of [] 5%float.

Definition pear : Product :=
  {| p_name := "Pear"; p_sku := "P1"; p_price := 1.5%float; p_stock := 4;
     p_category := None; p_barcode := None; p_active := true |}.

Definition second_retired : Product :=
  {| p_name := "Retired again"; p_sku := "R1"; p_price := 1%float;
     p_stock := 0; p_category := None; p_barcode := None; p_active := true |}.

(** The three parts of what a handler leaves. *)
Definition db_after {A} (x : Database * list event * result A) : Database :=
  fst (fst x).

Definition calls_of {A} (x : Database * list event * result A) : list event :=
  snd (fst x).

Definition result_of {A} (x : Database * list event * result A) : result A :=
  snd x.

(** ** The vocabulary of the further properties *)

(** The units of the product [o] that a list of items takes. *)
Fixpoint sold (o : oid) (its : list SaleItem) : Z :=
  match its with
  | [] => 0
  | it :: rest =>
      (if String.eqb (product_id it) o then quantity it else 0) + sold o rest
  end.

(** The product collection once the stock of every item is deducted, one
    [$inc] after the other. *)
Definition deduct_all (its : list SaleItem) (docs : list ProductDoc)
  : list ProductDoc :=
  fold_left (fun ds it => fst (inc_first (product_id it) (- quantity it) ds))
            its docs.

(** Two product documents that differ in their stock at most. *)
Definition same_but_stock (d d' : ProductDoc) : Prop :=
  d_id d' = d_id d /\ d_name d' = d_name d /\ d_sku d' = d_sku d /\
  d_price d' = d_price d /\ d_category d' = d_category d /\
  d_barcode d' = d_barcode d /\ d_active d' = d_active d.

(** An item is the full snapshot of the product its line refers to: the
    identity, name, SKU and price of that product, for the quantity the
    line asks for, which is at least 1 and at most the stock, and with
    the amounts the constraints of [SaleItem] accept. *)
Definition line_snapshot (db : Database) (line : Line) (it : SaleItem) : Prop :=
  exists prod,
    stored_product db (line_product_id line) = Some prod /\
    requested line = Some (quantity it) /\
    product_id it = d_id prod /\
    d_name prod = Some (i_name it) /\
    d_sku prod = Some (i_sku it) /\
    i_price it = price_or_0 prod /\
    subtotal it = round2 (raw_amount it) /\
    1 <= quantity it <= stock_or_0 prod /\
    ge0 (i_price it) = true /\ ge0 (subtotal it) = true.

(** The lookups of the loop over the lines, read off the items built. *)
Definition calls_for_lookup (its : list SaleItem) : list event :=
  map (fun it => FindOneActive (product_id it)) its.

(** The stock updates of the deduction loop, read off the items. *)
Definition calls_for_deduct (its : list SaleItem) : list event :=
  map (fun it => UpdateOneInc (product_id it) (- quantity it)) its.

(** A write of a sale that leaves the product collection as it is, on a
    store that stays configured. *)
Definition sale_write_keeps_products
    (ins : Database -> string -> document -> option (string * Database))
  : Prop :=
  forall s sl new_id db1,
    ins (Some s) "sale" (DSale sl) = Some (new_id, db1) ->
    exists s1, db1 = Some s1 /\ product s1 = product s.

(** A line with the default of [line.get("quantity", 1)] written out. *)
Definition with_default_quantity (line : Line) : Line :=
  {| line_product_id := line_product_id line;
     line_quantity := match line_quantity line with
                      | QtyAbsent => QtyInt 1
                      | q => q
                      end |}.

Definition with_default_quantities (request : SaleRequest) : SaleRequest :=
  {| r_items := map with_default_quantity (r_items request);
     r_paid := r_paid request;
     r_customer_name := r_customer_name request;
     r_student_ref := r_student_ref request;
     r_payment_method := r_payment_method request |}.

Definition gum_twice_two : SaleRequest :=
  request_of [line_of gum_id 2; line_of gum_id 2] 10%float.

Definition apple_and_gum : SaleRequest :=
  request_of [line_of apple_id 3; line_of gum_id 2] 20%float.

Definition apple_then_malformed : SaleRequest :=
  request_of [line_of apple_id 1; line_of "not-an-id" 1] 10%float.

Definition apple_then_none : SaleRequest :=
  request_of [line_of apple_id 1; line_of gum_id 0] 10%float.

Definition apple_by_default : SaleRequest :=
  request_of [{| line_product_id := PidStr apple_id;
                 line_quantity := QtyAbsent |}] 10%float.

(** * Properties *)

(** ** Floats *)

Lemma Prim2SF_zero : Prim2SF 0%float = S754_zero false.
Proof. reflexivity. Qed.

Lemma ge0_shape (x : float) : ge0 x = sf_nonneg (Prim2SF x).
Proof.
  unfold ge0. rewrite FloatAxioms.leb_spec, Prim2SF_zero.
  destruct (Prim2SF x) as [s|s| |s m e]; try destruct s; reflexivity.
Qed.

Lemma iter_pos_shr_1_nonneg (p : positive) :
  forall mrs, 0 <= shr_m mrs -> 0 <= shr_m (iter_pos shr_1 p mrs).
Proof.
  assert (H1 : forall mrs, 0 <= shr_m mrs -> 0 <= shr_m (shr_1 mrs)).
  { intros [m r s] H; simpl in *.
    destruct m as [|[q|q|]|q]; simpl; lia. }
  induction p as [p IH|p IH|]; intros mrs H; simpl; auto.
Qed.

Lemma shr_fexp_nonneg (m e : Z) (l : location) :
  0 <= m -> 0 <= shr_m (fst (shr_fexp prec emax m e l)).
Proof.
  intros H. unfold shr_fexp, shr.
  assert (H0 : 0 <= shr_m (shr_record_of_loc m l)).
  { destruct l as [|[| |]]; simpl; exact H. }
  destruct (fexp prec emax (Zdigits2 m + e) - e); simpl; auto.
  now apply iter_pos_shr_1_nonneg.
Qed.

Lemma round_nearest_even_nonneg (m : Z) (l : location) :
  0 <= m -> 0 <= round_nearest_even m l.
Proof.
  intros H. destruct l as [|[| |]]; simpl; try lia.
  destruct (Z.even m); lia.
Qed.

(** Rounding a magnitude that is not negative, with the sign bit clear,
    never gives NaN or a negative float. *)
Lemma binary_round_aux_nonneg (m e : Z) (l : location) :
  0 <= m -> sf_nonneg (binary_round_aux prec emax false m e l) = true.
Proof.
  intros H. unfold binary_round_aux.
  pose proof (shr_fexp_nonneg m e l H) as H1.
  destruct (shr_fexp prec emax m e l) as [mrs' e']; simpl in H1.
  pose proof (shr_fexp_nonneg _ e' loc_Exact
                (round_nearest_even_nonneg _ (loc_of_shr_record mrs') H1)) as H2.
  destruct (shr_fexp prec emax _ e' loc_Exact) as [mrs'' e'']; simpl in H2.
  destruct (shr_m mrs''); [reflexivity| |lia].
  destruct (e'' <=? emax - prec); reflexivity.
Qed.

Lemma binary_normalize_nonneg (m e : Z) :
  0 <= m -> sf_nonneg (binary_normalize prec emax m e false) = true.
Proof.
  intros H. destruct m as [|p|p]; [reflexivity| |lia].
  simpl. unfold binary_round.
  destruct (shl_align p e _) as [mz ez].
  apply binary_round_aux_nonneg. lia.
Qed.

Lemma SFdiv_nonneg (a : spec_float) (m : positive) (e : Z) :
  sf_nonneg a = true ->
  sf_nonneg (SF64div a (S754_finite false m e)) = true.
Proof.
  destruct a as [s|s| |s ma ea]; simpl; try discriminate;
    try (destruct s; simpl; try discriminate; reflexivity).
  destruct s; simpl; try discriminate. intros _.
  unfold SF64div, SFdiv.
  destruct (SFdiv_core_binary prec emax (Z.pos ma) ea (Z.pos m) e)
    as [[mz ez] lz] eqn:E.
  apply binary_round_aux_nonneg.
  unfold SFdiv_core_binary in E.
  set (s := _ - _ - _) in E.
  set (m' := match s with Z0 => _ | Zpos _ => _ | Zneg _ => _ end) in E.
  assert (Hm' : 0 <= m').
  { subst m'. destruct s; try lia. apply Z.shiftl_nonneg. lia. }
  pose proof (Z_div_mod m' (Z.pos m) ltac:(lia)) as Hd.
  destruct (Z.div_eucl m' (Z.pos m)) as [q r].
  injection E as <- _ _. destruct Hd as [Hd Hr]. nia.
Qed.

(** [round(x, 2)] of a float that passes [ge=0] passes [ge=0]. *)
Lemma round2_ge0 (x : float) : ge0 x = true -> ge0 (round2 x) = true.
Proof.
  intros H. unfold round2.
  destruct (Prim2SF x) as [s|s| |s m e] eqn:E; auto.
  destruct (0 <=? e); auto.
  destruct (_ <? 2 ^ 53); auto.
  rewrite ge0_shape, E in H. simpl in H. destruct s; [discriminate|].
  rewrite ge0_shape, FloatAxioms.div_spec, FloatAxioms.of_uint63_spec.
  apply (SFdiv_nonneg _ 7036874417766400 (-46)).
  apply binary_normalize_nonneg.
  apply Uint63.to_Z_bounded.
Qed.

Lemma SFcompare_antisym (a b : spec_float) (c : comparison) :
  SFcompare a b = Some c -> SFcompare b a = Some (CompOpp c).
Proof.
  destruct a as [sa|sa| |sa ma ea], b as [sb|sb| |sb mb eb]; simpl;
    try discriminate;
    try (intros [= <-]; try destruct sa; try destruct sb; reflexivity).
  intros [= <-]. f_equal.
  rewrite (Z.compare_antisym ea eb).
  change (Pos.compare_cont Eq mb ma) with (Pos.compare mb ma).
  change (Pos.compare_cont Eq ma mb) with (Pos.compare ma mb).
  rewrite (Pos.compare_antisym ma mb).
  destruct sa, sb; simpl; try reflexivity;
    destruct (ea ?= eb); simpl; try reflexivity;
    destruct (ma ?= mb)%positive; reflexivity.
Qed.

(** Between two floats that pass [ge=0], [a < b] being false is
    [a >= b]: neither is NaN. *)
Lemma ltb_false_leb (a b : float) :
  ge0 a = true -> ge0 b = true ->
  (a <? b)%float = false -> (b <=? a)%float = true.
Proof.
  rewrite !ge0_shape, FloatAxioms.ltb_spec, FloatAxioms.leb_spec.
  unfold SFltb, SFleb. intros Ha Hb H.
  destruct (SFcompare (Prim2SF a) (Prim2SF b)) as [c|] eqn:E.
  - rewrite (SFcompare_antisym _ _ _ E). destruct c; simpl; congruence.
  - destruct (Prim2SF a) as [sa|sa| |sa ma ea],
             (Prim2SF b) as [sb|sb| |sb mb eb]; simpl in *; discriminate.
Qed.

Lemma sub_zero_r (x : float) : (x - 0)%float = x.
Proof.
  apply Prim2SF_inj. rewrite FloatAxioms.sub_spec, Prim2SF_zero.
  destruct (Prim2SF x) as [s|s| |s m e]; try destruct s; reflexivity.
Qed.

Lemma round2_zero : round2 0%float = 0%float.
Proof. reflexivity. Qed.

Lemma float_neq (x y : float) : Prim2SF x <> Prim2SF y -> x <> y.
Proof. intros H E. apply H. now rewrite E. Qed.

(** ** Identities *)

Lemma lower_hex (c : ascii) :
  is_hex c = true ->
  is_hex (lower c) = true /\ Ascii.eqb (lower (lower c)) (lower c) = true.
Proof.
  destruct c as [[] [] [] [] [] [] [] []]; vm_compute; intros H;
    (discriminate H || (split; reflexivity)).
Qed.

Lemma hex_not_space (c : ascii) : is_hex c = true -> is_space c = false.
Proof.
  destruct c as [[] [] [] [] [] [] [] []]; vm_compute; intros H;
    (discriminate H || reflexivity).
Qed.

(** What [bytes.fromhex] reads is the digits of whole bytes, in lower
    case. *)
Lemma hex_pairs_canonical (s : string) :
  (forall o, hex_pairs s None = Some o -> canonical o = true) /\
  (forall t o, is_hex t = true -> hex_pairs s (Some t) = Some o ->
               canonical o = true).
Proof.
  induction s as [|c r [IH1 IH2]]; simpl.
  - split; [intros o [= <-]; reflexivity|discriminate].
  - split.
    + intros o. destruct (is_space c); [apply IH1|].
      destruct (is_hex c) eqn:Hc; [apply IH2; exact Hc|discriminate].
    + intros t o Ht. destruct (is_hex c) eqn:Hc; [|discriminate].
      destruct (hex_pairs r None) as [o1|] eqn:E; simpl; [|discriminate].
      intros [= <-]. simpl.
      destruct (lower_hex t Ht) as [-> ->].
      destruct (lower_hex c Hc) as [-> ->].
      simpl. now apply IH1.
Qed.

(** Read again, the digits of whole bytes in lower case are
    themselves. *)
Lemma canonical_fixed (o : string) :
  (canonical o = true -> hex_pairs o None = Some o) /\
  (forall a, canonical (String a o) = true ->
             hex_pairs (String a o) None = Some (String a o)).
Proof.
  induction o as [|b r [IH1 IH2]].
  - split; [reflexivity|discriminate].
  - split; [apply IH2|].
    intros a H. simpl in H.
    apply andb_prop in H as [H Hr]. apply andb_prop in H as [H Hlb].
    apply andb_prop in H as [H Hb]. apply andb_prop in H as [Ha Hla].
    apply Ascii.eqb_eq in Hla, Hlb.
    cbn [hex_pairs]. rewrite (hex_not_space a Ha), Ha, Hb, (IH1 Hr).
    simpl. now rewrite Hla, Hlb.
Qed.

(** An identity that was parsed and parses again parses to itself:
    [ObjectId(str(oid)) == oid]. *)
Lemma ObjectId_fixed (s : string) (o o' : oid) :
  ObjectId s = Some o -> ObjectId o = Some o' -> o' = o.
Proof.
  unfold ObjectId.
  destruct (Nat.eqb (String.length s) 24); [|discriminate].
  destruct (Nat.eqb (String.length o) 24); [|discriminate].
  intros Hs Ho. apply (proj1 (hex_pairs_canonical s)) in Hs.
  apply (proj1 (canonical_fixed o)) in Hs. congruence.
Qed.

(** ** The loop over the lines *)

Ltac run := unfold bind, ret, raise, db_is_none, db_truth in *; simpl in *.

Lemma stored_product_id (db : Database) (str : string) (o : oid)
    (prod : ProductDoc) :
  ObjectId str = Some o ->
  stored_product db (PidStr str) = Some prod ->
  d_id prod = o /\ d_active prod = Some true.
Proof.
  intros Ho H. destruct db as [s|]; simpl in H; [|discriminate].
  rewrite Ho in H. apply find_some in H as [_ H].
  apply andb_prop in H as [H1 H2]. apply String.eqb_eq in H1.
  split; [exact H1|]. unfold active_is_true in H2.
  destruct (d_active prod) as [[|]|]; congruence.
Qed.

(** No active product carries the identity: every stored document with
    it is inactive, or there is none. *)
Lemma stored_product_none (s : Store) (str : string) (o : oid) :
  ObjectId str = Some o ->
  (stored_product (Some s) (PidStr str) = None <->
   forall d, In d (product s) -> d_id d = o -> d_active d <> Some true).
Proof.
  intros Ho. simpl. rewrite Ho. split.
  - intros H d Hin Hid Hact.
    apply (find_none _ _ H) in Hin. unfold active_is_true in Hin.
    rewrite Hact, Hid, String.eqb_refl in Hin. discriminate.
  - intros H.
    destruct (find _ (product s)) as [d|] eqn:E; [|reflexivity].
    apply find_some in E as [Hin E]. apply andb_prop in E as [E1 E2].
    apply String.eqb_eq in E1. exfalso. apply (H d Hin E1).
    unfold active_is_true in E2. destruct (d_active d) as [[|]|]; congruence.
Qed.

Lemma new_SaleItem_inv (pid : string) (name sku : option string)
    (price : float) (qty : Z) (sub : float) (db db' : Database)
    (t : list event) (r : result SaleItem) :
  new_SaleItem pid name sku price qty sub db = (db', t, r) ->
  db' = db /\ t = [] /\
  (forall it, r = Ok it ->
     product_id it = pid /\ i_price it = price /\ quantity it = qty /\
     subtotal it = sub /\ 1 <= qty).
Proof.
  unfold new_SaleItem. destruct name, sku; run;
    try (intros [= <- <- <-]; do 2 (split; [reflexivity|]); discriminate).
  destruct (ge0 price && (1 <=? qty) && ge0 sub)%bool eqn:E; run;
    intros [= <- <- <-]; do 2 (split; [reflexivity|]); [|discriminate].
  intros it [= <-]; simpl.
  apply andb_prop in E as [E _]. apply andb_prop in E as [_ E].
  repeat split; lia.
Qed.

(** A line that asks for more than the stock of its product stops there,
    with the 400 that names the product. *)
Lemma sale_line_short (line : Line) (s : Store) (prod : ProductDoc) (qty : Z) :
  stored_product (Some s) (line_product_id line) = Some prod ->
  requested line = Some qty ->
  stock_or_0 prod < qty ->
  sale_line line (Some s)
  = (Some s, [FindOneActive (d_id prod)],
     Raise (HTTPException 400
              (String.append "Insufficient stock for " (show_name prod)))).
Proof.
  intros Hp Hq Hlt. unfold sale_line, requested in *.
  destruct (line_product_id line) as [|str|shown]; try discriminate.
  pose proof Hp as Hp'. simpl in Hp.
  destruct (ObjectId str) as [o|] eqn:Ho; [|discriminate].
  destruct (stored_product_id _ _ _ _ Ho Hp') as [Hid _].
  destruct (line_quantity line); try discriminate;
    injection Hq as <-; run; rewrite Ho; unfold find_one_active; simpl;
    rewrite Hp; simpl; apply Z.ltb_lt in Hlt; rewrite Hlt, Hid; reflexivity.
Qed.

(** A line whose identity no active product carries stops there, with
    the 404. *)
Lemma sale_line_unknown (line : Line) (s : Store) (str : string) (o : oid)
    (qty : Z) :
  line_product_id line = PidStr str ->
  ObjectId str = Some o ->
  stored_product (Some s) (line_product_id line) = None ->
  requested line = Some qty ->
  sale_line line (Some s)
  = (Some s, [FindOneActive o],
     Raise (HTTPException 404 "Product not found or inactive")).
Proof.
  intros Hl Ho Hp Hq. unfold sale_line, requested in *. rewrite Hl in *.
  simpl in Hp. rewrite Ho in Hp.
  destruct (line_quantity line); try discriminate;
    injection Hq as <-; run; rewrite Ho; unfold find_one_active; simpl;
    rewrite Hp; reflexivity.
Qed.

(** One turn of the loop only reads the store. *)
Lemma sale_line_pure (line : Line) (db db' : Database) (t : list event)
    (r : result SaleItem) :
  sale_line line db = (db', t, r) ->
  db' = db /\ forallb is_find t = true.
Proof.
  unfold sale_line, int_of_quantity, lookup_product, find_one_active.
  destruct (line_quantity line), (line_product_id line) as [|str|shown];
    run; try (intros [= <- <- <-]; auto);
    try destruct (ObjectId str) as [o|]; run;
    try (intros [= <- <- <-]; auto);
    destruct db as [s|]; run; try (intros [= <- <- <-]; auto);
    destruct (find _ (product s)) as [prod|]; run;
    try (intros [= <- <- <-]; auto);
    destruct (stock_or_0 prod <? _); run; try (intros [= <- <- <-]; auto);
    destruct (new_SaleItem _ _ _ _ _ _ _) as [[db1 t1] r1] eqn:E;
    apply new_SaleItem_inv in E as (-> & -> & _);
    intros [= <- <- <-]; auto.
Qed.

(** The item a turn of the loop builds is the snapshot of its line. *)
Lemma sale_line_ok (line : Line) (db db' : Database) (t : list event)
    (it : SaleItem) :
  sale_line line db = (db', t, Ok it) -> line_item db line it.
Proof.
  unfold sale_line, int_of_quantity, lookup_product, find_one_active,
    find_one_active_new, line_item, requested, stored_product.
  destruct (line_quantity line), (line_product_id line) as [|str|shown];
    run; try discriminate;
    try (destruct db as [s|]; run; discriminate);
    destruct (ObjectId str) as [o|]; run; try discriminate;
    destruct db as [s|]; run; try discriminate;
    destruct (find _ (product s)) as [prod|]; run; try discriminate;
    destruct (stock_or_0 prod <? _); run; try discriminate;
    destruct (new_SaleItem _ _ _ _ _ _ _) as [[db1 t1] r1] eqn:E;
    apply new_SaleItem_inv in E as (-> & -> & E);
    intros [= <- <- ->]; destruct (E it eq_refl) as (H1 & H2 & H3 & H4 & _);
    exists prod; unfold raw_amount; rewrite H1, H2, H3, H4; auto.
Qed.

Lemma sale_lines_pure (lines : list Line) :
  forall its tot db db' t r,
    sale_lines lines its tot db = (db', t, r) ->
    db' = db /\ forallb is_find t = true.
Proof.
  induction lines as [|line rest IH]; intros its tot db db' t r; simpl.
  - run. intros [= <- <- <-]. auto.
  - unfold bind.
    destruct (sale_line line db) as [[db1 t1] [it|e]] eqn:E1;
      apply sale_line_pure in E1 as [-> F1].
    + destruct (sale_lines rest _ _ db) as [[db2 t2] r2] eqn:E2.
      apply IH in E2 as [-> F2]. intros [= <- <- <-].
      rewrite forallb_app, F1, F2. auto.
    + intros [= <- <- <-]. auto.
Qed.

(** What the loop leaves when every line passes: one item per line, in
    order, after the items it started from, and the subtotals added one
    by one to the running total. *)
Lemma sale_lines_ok (lines : list Line) :
  forall its tot db db' t its' tot',
    sale_lines lines its tot db = (db', t, Ok (its', tot')) ->
    exists new,
      its' = its ++ new /\
      tot' = fold_left PrimFloat.add (map subtotal new) tot /\
      Forall2 (line_item db) lines new.
Proof.
  induction lines as [|line rest IH]; intros its tot db db' t its' tot'; simpl.
  - run. intros [= <- <- <- <-]. exists []. rewrite app_nil_r. auto.
  - unfold bind.
    destruct (sale_line line db) as [[db1 t1] [it|e]] eqn:E1; [|discriminate].
    pose proof (sale_line_ok _ _ _ _ _ E1) as Hit.
    apply sale_line_pure in E1 as [-> _].
    destruct (sale_lines rest _ _ db) as [[db2 t2] r2] eqn:E2.
    intros [= <- <- ->]. apply IH in E2 as (new & -> & -> & F).
    exists (it :: new). rewrite <- app_assoc. simpl. auto.
Qed.

(** The loop over [pre ++ rest] is the loop over [pre], then the loop
    over [rest] from where it stopped. *)
Lemma sale_lines_app (pre rest : list Line) :
  forall its tot db t1 its1 tot1,
    sale_lines pre its tot db = (db, t1, Ok (its1, tot1)) ->
    sale_lines (pre ++ rest) its tot db
    = (let '(db2, t2, r) := sale_lines rest its1 tot1 db in (db2, t1 ++ t2, r)).
Proof.
  induction pre as [|line pre IH]; intros its tot db t1 its1 tot1; simpl.
  - run. intros [= <- <- <-].
    destruct (sale_lines rest its tot db) as [[db2 t2] r]. reflexivity.
  - unfold bind.
    destruct (sale_line line db) as [[db1 ta] [it|e]] eqn:E1; [|discriminate].
    apply sale_line_pure in E1 as [-> _].
    destruct (sale_lines pre _ _ db) as [[db2 tb] r2] eqn:E2.
    pose proof (sale_lines_pure _ _ _ _ _ _ _ E2) as [-> _].
    intros [= <- ->]. rewrite (IH _ _ _ _ _ _ E2).
    destruct (sale_lines rest its1 tot1 db) as [[db3 tc] r3].
    now rewrite app_assoc.
Qed.

(** A failing turn does not depend on the items and the total so far,
    so a line that fails on its own makes the loop fail, at that line or
    before. *)
Lemma sale_lines_raise (lines : list Line) (line : Line) (db : Database)
    (t : list event) (e : exn) :
  In line lines ->
  sale_line line db = (db, t, Raise e) ->
  forall its tot, exists t' e',
    sale_lines lines its tot db = (db, t', Raise e').
Proof.
  intros Hin Hl. induction lines as [|l rest IH]; [contradiction|].
  intros its tot. simpl. unfold bind.
  destruct (sale_line l db) as [[db1 t1] [it|e1]] eqn:E1.
  - pose proof (sale_line_pure _ _ _ _ _ E1) as [-> _].
    destruct Hin as [->|Hin]; [congruence|].
    destruct (IH Hin (its ++ [it]) (tot + subtotal it)%float) as (t' & e' & ->).
    eauto.
  - apply sale_line_pure in E1 as [-> _]. eauto.
Qed.

Lemma deduct_stock_trace (its : list SaleItem) :
  forall db db' t r,
    deduct_stock its db = (db', t, r) -> forallb is_inc t = true.
Proof.
  induction its as [|it rest IH]; intros db db' t r; simpl.
  - run. intros [= <- <- <-]. reflexivity.
  - destruct (ObjectId (product_id it)) as [o|]; run;
      [|intros [= <- <- <-]; reflexivity].
    unfold update_one_inc. destruct db as [s|]; run;
      [|intros [= <- <- <-]; reflexivity].
    destruct (inc_first o (- quantity it) (product s)) as [docs n].
    destruct (deduct_stock rest _) as [[db2 t2] r2] eqn:E.
    apply IH in E. intros [= <- <- <-]. simpl. exact E.
Qed.

(** ** The sale handler, step by step *)

Section Sales.

Variable ins : Database -> string -> document -> option (string * Database).

Lemma create_sale_without_db (request : SaleRequest) :
  create_sale ins request None
  = (None, [], Raise (HTTPException 500 "Database not configured")).
Proof. reflexivity. Qed.

(** [create_sale] on a configured store, by the step it ends at. *)
Lemma create_sale_eq (request : SaleRequest) (s : Store) :
  create_sale ins request (Some s)
  = match sale_lines (r_items request) [] 0%float (Some s) with
    | (_, t1, Raise e) => (Some s, t1, Raise e)
    | (_, t1, Ok (its, tot)) =>
        if (r_paid request <? round2 tot)%float
        then (Some s, t1,
              Raise (HTTPException 400 "Paid amount is less than total"))
        else if sale_fields_valid request tot
        then
          let sl := sale_of request its tot in
          match ins (Some s) "sale" (DSale sl) with
          | None =>
              (Some s, t1 ++ [CreateDocument "sale" (DSale sl)],
               Raise StorageError)
          | Some (new_id, db1) =>
              let '(db2, t3, r3) := deduct_stock its db1 in
              (db2, t1 ++ CreateDocument "sale" (DSale sl) :: t3,
               match r3 with
               | Ok _ => Ok (response_of request tot new_id)
               | Raise e => Raise e
               end)
          end
        else (Some s, t1, Raise ValidationError)
    end.
Proof.
  unfold create_sale, bind at 1. simpl. unfold bind at 1.
  destruct (sale_lines _ _ _ _) as [[db1 t1] [[its tot]|e]] eqn:E;
    apply sale_lines_pure in E as [-> _]; [|reflexivity].
  simpl. destruct (r_paid request <? round2 tot)%float.
  - run. now rewrite app_nil_r.
  - unfold new_Sale, sale_fields_valid.
    destruct (ge0 _ && ge0 _ && ge0 _)%bool; run;
      [|now rewrite app_nil_r].
    unfold create_document, sale_of.
    destruct (ins _ _ _) as [[new_id db1]|]; [|reflexivity].
    destruct (deduct_stock its db1) as [[db2 t3] [[]|e]];
      simpl; rewrite ?app_nil_r; reflexivity.
Qed.

(** A request one of whose lines fails on its own fails, and makes no
    write. *)
Lemma create_sale_line_raises (request : SaleRequest) (s : Store)
    (line : Line) (t : list event) (e : exn) :
  In line (r_items request) ->
  sale_line line (Some s) = (Some s, t, Raise e) ->
  exists tr e',
    sale_lines (r_items request) [] 0%float (Some s) = (Some s, tr, Raise e') /\
    create_sale ins request (Some s) = (Some s, tr, Raise e') /\
    forallb is_find tr = true.
Proof.
  intros Hin Hl.
  destruct (sale_lines_raise _ _ _ _ _ Hin Hl [] 0%float) as (tr & e' & E).
  exists tr, e'. rewrite create_sale_eq, E.
  apply sale_lines_pure in E as [_ F]. auto.
Qed.

(** A request whose lines before [line] pass and whose [line] fails
    stops at that line. *)
Lemma sale_lines_stop (pre post : list Line) (line : Line) (s : Store)
    (t1 t : list event) (its : list SaleItem) (tot : float) (e : exn) :
  sale_lines pre [] 0%float (Some s) = (Some s, t1, Ok (its, tot)) ->
  sale_line line (Some s) = (Some s, t, Raise e) ->
  sale_lines (pre ++ line :: post) [] 0%float (Some s)
  = (Some s, t1 ++ t, Raise e).
Proof.
  intros Hpre Hl. rewrite (sale_lines_app _ _ _ _ _ _ _ _ Hpre).
  simpl. unfold bind. rewrite Hl. reflexivity.
Qed.

(** A successful request went through every step. *)
Lemma create_sale_ok_inv (request : SaleRequest) (db db' : Database)
    (tr : list event) (resp : SaleResponse) :
  create_sale ins request db = (db', tr, Ok resp) ->
  exists s t1 its tot new_id db1 t3,
    db = Some s /\
    sale_lines (r_items request) [] 0%float (Some s)
    = (Some s, t1, Ok (its, tot)) /\
    (r_paid request <? round2 tot)%float = false /\
    sale_fields_valid request tot = true /\
    ins (Some s) "sale" (DSale (sale_of request its tot)) = Some (new_id, db1) /\
    deduct_stock its db1 = (db', t3, Ok tt) /\
    tr = t1 ++ CreateDocument "sale" (DSale (sale_of request its tot)) :: t3 /\
    resp = response_of request tot new_id.
Proof.
  intros H. destruct db as [s|]; [|discriminate H].
  rewrite create_sale_eq in H.
  destruct (sale_lines _ _ _ _) as [[db0 t1] [[its tot]|e]] eqn:E;
    [|discriminate H].
  pose proof (sale_lines_pure _ _ _ _ _ _ _ E) as [-> _].
  destruct (r_paid request <? round2 tot)%float eqn:Hp; [discriminate H|].
  destruct (sale_fields_valid request tot) eqn:Hv; [|discriminate H].
  cbv zeta in H.
  destruct (ins _ _ _) as [[new_id db1]|] eqn:Hi; [|discriminate H].
  destruct (deduct_stock its db1) as [[db2 t3] [[]|e]] eqn:Hd;
    [|discriminate H].
  injection H as <- <- <-.
  exists s, t1, its, tot, new_id, db1, t3. repeat split; auto.
Qed.

(** The store calls of a request on a configured store: reads only, when
    it ends before the write of the sale; else reads, then the write of
    the sale, then, if that write went through, stock updates only. *)
Lemma create_sale_shape (request : SaleRequest) (s : Store) (db' : Database)
    (tr : list event) (r : result SaleResponse) :
  create_sale ins request (Some s) = (db', tr, r) ->
  (forallb is_find tr = true /\ db' = Some s /\ exists e, r = Raise e) \/
  (exists t1 its tot,
     forallb is_find t1 = true /\
     ((ins (Some s) "sale" (DSale (sale_of request its tot)) = None /\
       tr = t1 ++ [CreateDocument "sale" (DSale (sale_of request its tot))] /\
       db' = Some s /\ r = Raise StorageError) \/
      (exists new_id db1 t3,
         ins (Some s) "sale" (DSale (sale_of request its tot))
         = Some (new_id, db1) /\
         tr = t1 ++ CreateDocument "sale" (DSale (sale_of request its tot)) :: t3 /\
         forallb is_inc t3 = true))).
Proof.
  rewrite create_sale_eq.
  destruct (sale_lines _ _ _ _) as [[db0 t1] [[its tot]|e]] eqn:E;
    apply sale_lines_pure in E as [-> F].
  - destruct (r_paid request <? round2 tot)%float;
      [intros [= <- <- <-]; left; eauto|].
    destruct (sale_fields_valid request tot);
      [|intros [= <- <- <-]; left; eauto].
    cbv zeta. destruct (ins _ _ _) as [[new_id db1]|] eqn:Hi.
    + destruct (deduct_stock its db1) as [[db2 t3] r3] eqn:Hd.
      apply deduct_stock_trace in Hd. intros [= <- <- <-].
      right. exists t1, its, tot. split; [exact F|]. right.
      exists new_id, db1, t3. auto.
    + intros [= <- <- <-]. right. exists t1, its, tot.
      split; [exact F|]. left. auto.
  - intros [= <- <- <-]. left. eauto.
Qed.

Lemma forallb_In_false (p : event -> bool) (t : list event) (x : event) :
  forallb p t = true -> p x = false -> ~ In x t.
Proof.
  intros F Hx Hin. rewrite forallb_forall in F. apply F in Hin. congruence.
Qed.

(** A line whose identity no active product carries fails on its own,
    whatever its quantity. *)
Lemma sale_line_unknown_raises (line : Line) (s : Store) (str : string)
    (o : oid) :
  line_product_id line = PidStr str ->
  ObjectId str = Some o ->
  stored_product (Some s) (line_product_id line) = None ->
  exists t e, sale_line line (Some s) = (Some s, t, Raise e).
Proof.
  intros Hl Ho Hp. destruct (requested line) as [qty|] eqn:Hq.
  - rewrite (sale_line_unknown _ _ _ _ _ Hl Ho Hp Hq). eauto.
  - unfold requested in Hq. unfold sale_line.
    destruct (line_quantity line); try discriminate; run; eauto.
Qed.

Lemma ge0_not_ltb_zero (x : float) :
  ge0 x = true -> (x <? 0)%float = false.
Proof.
  rewrite ge0_shape, FloatAxioms.ltb_spec, Prim2SF_zero.
  destruct (Prim2SF x) as [sx|sx| |sx m e]; try destruct sx;
    cbv; congruence.
Qed.

(** ** The claims on [create_sale] *)

(** C1, amended: on every request on which [create_sale] succeeds, the
    total returned is the total of the sale it wrote, and equals
    [round(s_1 + ... + s_n, 2)] where each [s_i] is the subtotal
    [round(price_i * qty_i, 2)] of line [i], rounded on its own before
    it is added: [price_i] is the price of the active product the line
    refers to and [qty_i] the quantity the line asks for. *)
Theorem create_sale_total (request : SaleRequest) (db db' : Database)
    (tr : list event) (resp : SaleResponse) :
  create_sale ins request db = (db', tr, Ok resp) ->
  exists sl,
    In (CreateDocument "sale" (DSale sl)) tr /\
    total sl = resp_total resp /\
    resp_total resp = round2 (sum_floats (map subtotal (items sl))) /\
    Forall2 (line_item db) (r_items request) (items sl).
Proof.
  intros H.
  apply create_sale_ok_inv in H
    as (s & t1 & its & tot & new_id & db1 & t3 & -> & E & _ & _ & _ & _ & -> & ->).
  apply sale_lines_ok in E as (new & -> & -> & F).
  exists (sale_of request ([] ++ new) (fold_left PrimFloat.add (map subtotal new) 0%float)).
  split; [apply in_or_app; right; left; reflexivity|].
  simpl. auto.
Qed.

(** C2, amended: a request with a line that asks for more than the stock
    of the active product it refers to fails, writes no sale and updates
    no stock: its store calls are reads only and the store is as before.
    When the lines before that one pass, the failure is the 400
    "Insufficient stock for <name>" and the last store call is the
    lookup of that line: no later line is read. *)
Theorem create_sale_insufficient_stock (request : SaleRequest) (s : Store)
    (pre post : list Line) (line : Line) (prod : ProductDoc) (qty : Z) :
  r_items request = pre ++ line :: post ->
  stored_product (Some s) (line_product_id line) = Some prod ->
  requested line = Some qty ->
  stock_or_0 prod < qty ->
  exists tr e,
    create_sale ins request (Some s) = (Some s, tr, Raise e) /\
    forallb is_find tr = true /\
    (forall its tot tr1,
        sale_lines pre [] 0%float (Some s) = (Some s, tr1, Ok (its, tot)) ->
        tr = tr1 ++ [FindOneActive (d_id prod)] /\
        e = HTTPException 400
              (String.append "Insufficient stock for " (show_name prod))).
Proof.
  intros Hr Hp Hq Hlt.
  pose proof (sale_line_short _ _ _ _ Hp Hq Hlt) as Hl.
  assert (Hin : In line (r_items request))
    by (rewrite Hr; apply in_or_app; right; left; reflexivity).
  destruct (create_sale_line_raises _ _ _ _ _ Hin Hl) as (tr & e & E & C & F).
  exists tr, e. split; [exact C|]. split; [exact F|].
  intros its tot tr1 Hpre.
  rewrite Hr, (sale_lines_stop _ post _ _ _ _ _ _ _ Hpre Hl) in E.
  injection E as <- <-. auto.
Qed.

(** C3: in every run of [create_sale], a stock update comes only after
    the write of the sale, and that write went through; when the write
    of the sale fails, the run fails with the storage error, the store
    is as before, and no stock update is among its store calls. *)
Theorem create_sale_persists_first (request : SaleRequest) (db db' : Database)
    (tr : list event) (r : result SaleResponse) :
  create_sale ins request db = (db', tr, r) ->
  (forall pre o d post,
      tr = pre ++ UpdateOneInc o d :: post ->
      exists sl new_id db1,
        In (CreateDocument "sale" (DSale sl)) pre /\
        ins db "sale" (DSale sl) = Some (new_id, db1)) /\
  (forall sl,
      In (CreateDocument "sale" (DSale sl)) tr ->
      ins db "sale" (DSale sl) = None ->
      db' = db /\ r = Raise StorageError /\
      forallb (fun e => negb (is_inc e)) tr = true).
Proof.
  intros H. destruct db as [s|]; cycle 1.
  { rewrite create_sale_without_db in H. injection H as <- <- <-. split.
    - intros [|? ?] o d post Hx; discriminate Hx.
    - intros sl []. }
  apply create_sale_shape in H
    as [(F & -> & e & ->)|(t1 & its & tot & F & [(Hi & -> & -> & ->)|(new_id & db1 & t3 & Hi & -> & F3)])].
  - split.
    + intros pre o d post ->. exfalso.
      apply (forallb_In_false _ _ (UpdateOneInc o d) F eq_refl).
      apply in_or_app. right. left. reflexivity.
    + intros sl Hin _. exfalso.
      refine (forallb_In_false _ _ _ F _ Hin); reflexivity.
  - split.
    + intros pre o d post Hx. exfalso.
      assert (Hin : In (UpdateOneInc o d)
                       (t1 ++ [CreateDocument "sale" (DSale (sale_of request its tot))]))
        by (rewrite Hx; apply in_or_app; right; left; reflexivity).
      apply in_app_or in Hin as [Hin|[Hin|[]]]; [|discriminate Hin].
      refine (forallb_In_false _ _ _ F _ Hin); reflexivity.
    + intros sl _ _. repeat split. rewrite forallb_app. simpl.
      rewrite andb_true_r. rewrite forallb_forall in *.
      intros x Hx. apply F in Hx. destruct x; simpl in *; congruence.
  - split.
    + intros pre o d post Hx.
      exists (sale_of request its tot), new_id, db1. split; [|exact Hi].
      symmetry in Hx. apply app_eq_app in Hx as [l [[-> Hl]|[-> Hl]]].
      * destruct l as [|c l]; [discriminate Hl|].
        injection Hl as <- _. apply in_or_app. right. left. reflexivity.
      * exfalso. destruct l as [|c l]; [discriminate Hl|].
        injection Hl as <- _.
        apply (forallb_In_false _ _ (UpdateOneInc o d) F eq_refl).
        apply in_or_app. right. left. reflexivity.
    + intros sl Hin Hn. exfalso.
      apply in_app_or in Hin as [Hin|[Hin|Hin]].
      * refine (forallb_In_false _ _ _ F _ Hin); reflexivity.
      * injection Hin as <-. congruence.
      * refine (forallb_In_false _ _ _ F3 _ Hin); reflexivity.
Qed.

(** C4: on every request on which [create_sale] succeeds, the change
    returned and written is [round(paid - total, 2)] and
    [paid >= total]; and when every line passes but [paid < total], the
    request fails with the 400 "Paid amount is less than total", its
    store calls are the reads of the loop only, and the store is as
    before. *)
Theorem create_sale_payment (request : SaleRequest) (db : Database) :
  (forall db' tr resp,
      create_sale ins request db = (db', tr, Ok resp) ->
      resp_paid resp = r_paid request /\
      resp_change resp = round2 (r_paid request - resp_total resp) /\
      (resp_total resp <=? r_paid request)%float = true /\
      exists sl,
        In (CreateDocument "sale" (DSale sl)) tr /\
        total sl = resp_total resp /\ paid sl = r_paid request /\
        change sl = resp_change resp) /\
  (forall tr its tot,
      db <> None ->
      sale_lines (r_items request) [] 0%float db = (db, tr, Ok (its, tot)) ->
      (r_paid request <? round2 tot)%float = true ->
      create_sale ins request db
      = (db, tr, Raise (HTTPException 400 "Paid amount is less than total")) /\
      forallb is_find tr = true).
Proof.
  split.
  - intros db' tr resp H.
    apply create_sale_ok_inv in H
      as (s & t1 & its & tot & new_id & db1 & t3 & -> & E & Hp & Hv & _ & _ & -> & ->).
    unfold sale_fields_valid in Hv.
    apply andb_prop in Hv as [Hv _]. apply andb_prop in Hv as [Ht Hpd].
    simpl. repeat split.
    + now apply ltb_false_leb.
    + exists (sale_of request its tot).
      split; [apply in_or_app; right; left; reflexivity|]. auto.
  - intros tr its tot Hdb E Hp. destruct db as [s|]; [|congruence].
    rewrite create_sale_eq, E, Hp.
    apply sale_lines_pure in E as [_ F]. auto.
Qed.

(** C5, amended: a request with a line whose identity is well formed but
    carried by no active product (no product at all, or inactive ones
    only) fails and writes nothing: its store calls are reads only.
    When the lines before that one pass and its quantity converts to an
    integer, the failure is the 404 "Product not found or inactive", the
    same for a missing and for an inactive product, and the last store
    call is the lookup of that line. *)
Theorem create_sale_not_found (request : SaleRequest) (s : Store)
    (pre post : list Line) (line : Line) (str : string) (o : oid) :
  r_items request = pre ++ line :: post ->
  line_product_id line = PidStr str ->
  ObjectId str = Some o ->
  (forall d, In d (product s) -> d_id d = o -> d_active d <> Some true) ->
  exists tr e,
    create_sale ins request (Some s) = (Some s, tr, Raise e) /\
    forallb is_find tr = true /\
    (forall its tot tr1 qty,
        sale_lines pre [] 0%float (Some s) = (Some s, tr1, Ok (its, tot)) ->
        requested line = Some qty ->
        tr = tr1 ++ [FindOneActive o] /\
        e = HTTPException 404 "Product not found or inactive").
Proof.
  intros Hr Hl Ho Hnone.
  apply (stored_product_none s str o Ho) in Hnone. rewrite <- Hl in Hnone.
  destruct (sale_line_unknown_raises _ _ _ _ Hl Ho Hnone) as (t0 & e0 & H0).
  assert (Hin : In line (r_items request))
    by (rewrite Hr; apply in_or_app; right; left; reflexivity).
  destruct (create_sale_line_raises _ _ _ _ _ Hin H0) as (tr & e & E & C & F).
  exists tr, e. split; [exact C|]. split; [exact F|].
  intros its tot tr1 qty Hpre Hqty.
  pose proof (sale_line_unknown _ _ _ _ _ Hl Ho Hnone Hqty) as Hq.
  rewrite Hr, (sale_lines_stop _ post _ _ _ _ _ _ _ Hpre Hq) in E.
  injection E as <- <-. auto.
Qed.

(** C8: a request with no line and [paid >= 0] succeeds whenever the
    write of its sale goes through: the sale written has no item, total
    [0.0] and change [round(paid, 2)], the answer carries the same
    amounts, and the write of the sale is the only store call, so no
    stock is updated. *)
Theorem create_sale_empty (request : SaleRequest) (s : Store)
    (new_id : string) (db' : Database) :
  r_items request = [] ->
  ge0 (r_paid request) = true ->
  let sl := {| items := []; total := 0%float; paid := r_paid request;
               change := round2 (r_paid request);
               customer_name := r_customer_name request;
               student_ref := r_student_ref request;
               payment_method := r_payment_method request |} in
  ins (Some s) "sale" (DSale sl) = Some (new_id, db') ->
  create_sale ins request (Some s)
  = (db', [CreateDocument "sale" (DSale sl)],
     Ok {| resp_id := new_id; resp_total := 0%float;
           resp_paid := r_paid request;
           resp_change := round2 (r_paid request) |}).
Proof.
  intros Hr Hp sl Hi. rewrite create_sale_eq, Hr. simpl sale_lines. run.
  unfold sale_fields_valid, sale_of, response_of.
  rewrite round2_zero, sub_zero_r, (ge0_not_ltb_zero _ Hp), Hp,
    (round2_ge0 _ Hp).
  simpl. fold sl. rewrite Hi. reflexivity.
Qed.

(** C10: a line that refers to an active product whose document has no
    stock field is checked against a stock of 0: with a quantity of at
    least 1 the turn of the loop for that line ends in the 400
    "Insufficient stock for <name>", and so does the request once the
    lines before it have passed. *)
Theorem create_sale_missing_stock (request : SaleRequest) (s : Store)
    (pre post : list Line) (line : Line) (prod : ProductDoc) (qty : Z)
    (tr1 : list event) (its : list SaleItem) (tot : float) :
  r_items request = pre ++ line :: post ->
  sale_lines pre [] 0%float (Some s) = (Some s, tr1, Ok (its, tot)) ->
  stored_product (Some s) (line_product_id line) = Some prod ->
  d_stock prod = None ->
  requested line = Some qty ->
  1 <= qty ->
  stock_or_0 prod = 0 /\
  sale_line line (Some s)
  = (Some s, [FindOneActive (d_id prod)],
     Raise (HTTPException 400
              (String.append "Insufficient stock for " (show_name prod)))) /\
  create_sale ins request (Some s)
  = (Some s, tr1 ++ [FindOneActive (d_id prod)],
     Raise (HTTPException 400
              (String.append "Insufficient stock for " (show_name prod)))).
Proof.
  intros Hr Hpre Hp Hs Hq Hge.
  assert (H0 : stock_or_0 prod = 0) by (unfold stock_or_0; now rewrite Hs).
  assert (Hl := sale_line_short _ _ _ _ Hp Hq ltac:(lia)).
  repeat split; auto.
  rewrite create_sale_eq, Hr, (sale_lines_stop _ post _ _ _ _ _ _ _ Hpre Hl).
  reflexivity.
Qed.

End Sales.

(** ** The claims on [update_stock] and [create_product] *)

Lemma inc_first_none (o : oid) (dl : Z) (docs : list ProductDoc) :
  find (fun d => String.eqb (d_id d) o) docs = None ->
  inc_first o dl docs = (docs, 0).
Proof.
  induction docs as [|d rest IH]; simpl; [reflexivity|].
  destruct (String.eqb (d_id d) o); [discriminate|].
  intros H. now rewrite (IH H).
Qed.

(** [$inc] changes the first document with the identity, and only its
    stock; that document is then the one a lookup by identity finds. *)
Lemma inc_first_some (o : oid) (dl : Z) (docs : list ProductDoc)
    (d : ProductDoc) :
  find (fun x => String.eqb (d_id x) o) docs = Some d ->
  exists l1 l2,
    docs = l1 ++ d :: l2 /\
    (forall x, In x l1 -> d_id x <> o) /\
    inc_first o dl docs = (l1 ++ inc_stock dl d :: l2, 1) /\
    find (fun x => String.eqb (d_id x) o) (l1 ++ inc_stock dl d :: l2)
    = Some (inc_stock dl d).
Proof.
  induction docs as [|c rest IH]; simpl; [discriminate|].
  destruct (String.eqb (d_id c) o) eqn:E.
  - intros [= ->]. exists [], rest. simpl. rewrite E.
    split; [reflexivity|]. split; [intros x []|]. split; reflexivity.
  - intros H. destruct (IH H) as (l1 & l2 & -> & Hl & -> & Hf).
    exists (c :: l1), l2. simpl. rewrite E, Hf.
    split; [reflexivity|]. split; [|split; reflexivity].
    intros x [<-|Hx]; [|now apply Hl].
    intros Hc. rewrite Hc, String.eqb_refl in E. discriminate.
Qed.

Lemma store_eta (s : Store) : {| product := product s; sale := sale s |} = s.
Proof. destruct s; reflexivity. Qed.

(** C6: for a well-formed identity and any integer [delta], whatever
    its sign: when a product has the identity, [update_stock] makes one
    store update, which adds [delta] to the stock of the first such
    product (an absent stock counting for 0) and changes nothing else,
    and returns that product; when none has it, the call fails with the
    404 and the store is as before; and the 404 comes in that case
    only. *)
Theorem update_stock_increments (pid : string) (o : oid) (dl : Z) (s : Store) :
  ObjectId pid = Some o ->
  (forall d,
      product_by_id s o = Some d ->
      exists l1 l2,
        product s = l1 ++ d :: l2 /\
        (forall x, In x l1 -> d_id x <> o) /\
        update_stock pid {| delta := dl |} (Some s)
        = (Some {| product := l1 ++ inc_stock dl d :: l2; sale := sale s |},
           [UpdateOneInc o dl; FindOneById o], Ok (inc_stock dl d)) /\
        d_stock (inc_stock dl d) = Some (stock_or_0 d + dl)) /\
  (product_by_id s o = None ->
   update_stock pid {| delta := dl |} (Some s)
   = (Some s, [UpdateOneInc o dl],
      Raise (HTTPException 404 "Product not found"))) /\
  ((exists db' tr,
       update_stock pid {| delta := dl |} (Some s)
       = (db', tr, Raise (HTTPException 404 "Product not found")))
   <-> product_by_id s o = None).
Proof.
  intros Ho.
  assert (Hsome : forall d,
            product_by_id s o = Some d ->
            exists l1 l2,
              product s = l1 ++ d :: l2 /\
              (forall x, In x l1 -> d_id x <> o) /\
              update_stock pid {| delta := dl |} (Some s)
              = (Some {| product := l1 ++ inc_stock dl d :: l2; sale := sale s |},
                 [UpdateOneInc o dl; FindOneById o], Ok (inc_stock dl d)) /\
              d_stock (inc_stock dl d) = Some (stock_or_0 d + dl)).
  { intros d Hd.
    destruct (inc_first_some o dl _ _ Hd) as (l1 & l2 & Hl & Hn & Hi & Hf).
    exists l1, l2. repeat split; auto.
    unfold update_stock. run. rewrite Ho. unfold update_one_inc. run.
    rewrite Hi. simpl. unfold find_one_by_id. simpl. rewrite Hf. reflexivity. }
  assert (Hnone : product_by_id s o = None ->
            update_stock pid {| delta := dl |} (Some s)
            = (Some s, [UpdateOneInc o dl],
               Raise (HTTPException 404 "Product not found"))).
  { intros Hd. unfold update_stock. run. rewrite Ho.
    unfold update_one_inc. run. rewrite (inc_first_none _ _ _ Hd). simpl.
    now rewrite store_eta. }
  repeat split; auto.
  - intros (db' & tr & H).
    destruct (product_by_id s o) as [d|] eqn:Hd; [|reflexivity].
    destruct (Hsome d eq_refl) as (l1 & l2 & _ & _ & E & _). congruence.
  - intros Hd. eauto.
Qed.

Section Products.

Variable ins : Database -> string -> document -> option (string * Database).

(** C7, as the code runs: on a configured store [create_product] stops
    at the truth test of the handle, [if db], which a pymongo
    [Database] refuses with NotImplementedError: for a product whose
    SKU a stored product has, and for one whose SKU is new alike, no
    lookup by SKU is made, the 400 "SKU already exists" is never the
    answer, and nothing is written. *)
Theorem create_product_configured (p : Product) (s : Store) :
  create_product ins p (Some s) = (Some s, [], Raise NotImplementedError) /\
  result_of (create_product ins p (Some s))
  <> Raise (HTTPException 400 "SKU already exists") /\
  (forall new_id, result_of (create_product ins p (Some s)) <> Ok new_id).
Proof.
  assert (E : create_product ins p (Some s)
              = (Some s, [], Raise NotImplementedError)) by reflexivity.
  rewrite E. unfold result_of. simpl. repeat split; discriminate.
Qed.

(** C9: with the handle unset, [create_product] makes no lookup by SKU
    and goes straight to the write of the document, whose outcome is its
    own, so it never answers with the 400 "SKU already exists"; with the
    handle unset, [create_sale] and [update_stock] answer with the 500
    "Database not configured" and make no store call. *)
Theorem create_product_without_db (p : Product) (request : SaleRequest)
    (pid : string) (payload : StockUpdate) :
  create_product ins p None
  = match ins None "product" (DProduct p) with
    | Some (new_id, db') =>
        (db', [CreateDocument "product" (DProduct p)], Ok new_id)
    | None =>
        (None, [CreateDocument "product" (DProduct p)], Raise StorageError)
    end /\
  snd (create_product ins p None)
  <> Raise (HTTPException 400 "SKU already exists") /\
  create_sale ins request None
  = (None, [], Raise (HTTPException 500 "Database not configured")) /\
  update_stock pid payload None
  = (None, [], Raise (HTTPException 500 "Database not configured")).
Proof.
  assert (E : create_product ins p None
              = match ins None "product" (DProduct p) with
                | Some (new_id, db') =>
                    (db', [CreateDocument "product" (DProduct p)], Ok new_id)
                | None =>
                    (None, [CreateDocument "product" (DProduct p)],
                     Raise StorageError)
                end).
  { unfold create_product, create_document. run.
    destruct (ins None "product" (DProduct p)) as [[new_id db']|]; reflexivity. }
  repeat split; auto.
  rewrite E. destruct (ins None "product" (DProduct p)) as [[new_id db']|];
    simpl; discriminate.
Qed.

End Products.

(** * The claims on the shop *)

(** The scenario of the spec: three apples at 2.50 paid with 10.00 come
    to 7.50, the change is 2.50, and seven of the ten apples are left. *)
Example three_apples_sold :
  exists new_id db',
    create_sale memory_insert three_apples (Some shop)
    = (Some db',
       [FindOneActive apple_id;
        CreateDocument "sale" (DSale (sale_of three_apples
          [{| product_id := apple_id; i_name := "Apple"; i_sku := "A1";
              i_price := 2.5%float; quantity := 3; subtotal := 7.5%float |}]
          7.5%float));
        UpdateOneInc apple_id (-3)],
       Ok {| resp_id := new_id; resp_total := 7.5%float;
             resp_paid := 10%float; resp_change := 2.5%float |}) /\
    option_map d_stock (product_by_id db' apple_id) = Some (Some 7).
Proof. do 2 eexists. split; vm_compute; reflexivity. Qed.

(** The same apples paid with 5.00: refused, and no store call after the
    lookup. *)
Example three_apples_underpaid :
  create_sale memory_insert three_apples_for_five (Some shop)
  = (Some shop, [FindOneActive apple_id],
     Raise (HTTPException 400 "Paid amount is less than total")).
Proof. vm_compute. reflexivity. Qed.

Lemma create_sale_total_witness :
  exists db' tr resp,
    create_sale memory_insert two_gums (Some shop) = (db', tr, Ok resp) /\
    exists sl,
      In (CreateDocument "sale" (DSale sl)) tr /\
      total sl = resp_total resp /\
      resp_total resp = round2 (sum_floats (map subtotal (items sl))) /\
      Forall2 (line_item (Some shop)) (r_items two_gums) (items sl).
Proof.
  do 3 eexists. split; [vm_compute; reflexivity|].
  eapply (create_sale_total memory_insert two_gums (Some shop)).
  vm_compute. reflexivity.
Defined.

(** Two gums at 1.125 each: each subtotal is 1.12, the total 2.24, but
    the products add up to 2.25. *)
Lemma create_sale_total_counterexample :
  ~ total_of_raw_amounts memory_insert (Some shop) two_gums.
Proof.
  intros H.
  assert (E : exists db' tr resp sl,
             create_sale memory_insert two_gums (Some shop) = (db', tr, Ok resp) /\
             In (CreateDocument "sale" (DSale sl)) tr /\
             Prim2SF (resp_total resp)
             <> Prim2SF (round2 (sum_floats (map raw_amount (items sl))))).
  { do 4 eexists. split; [vm_compute; reflexivity|].
    split; [right; right; left; reflexivity|].
    vm_compute. discriminate. }
  destruct E as (db' & tr & resp & sl & E & Hin & Hne).
  apply Hne. f_equal. exact (H _ _ _ _ E Hin).
Qed.

Lemma create_sale_insufficient_stock_witness :
  r_items apple_then_three_gums = [line_of apple_id 1] ++ line_of gum_id 3 :: [] /\
  stored_product (Some shop) (line_product_id (line_of gum_id 3)) = Some gum /\
  requested (line_of gum_id 3) = Some 3 /\
  stock_or_0 gum < 3 /\
  exists tr e,
    create_sale memory_insert apple_then_three_gums (Some shop)
    = (Some shop, tr, Raise e) /\
    forallb is_find tr = true /\
    (forall its tot tr1,
        sale_lines [line_of apple_id 1] [] 0%float (Some shop)
        = (Some shop, tr1, Ok (its, tot)) ->
        tr = tr1 ++ [FindOneActive (d_id gum)] /\
        e = HTTPException 400
              (String.append "Insufficient stock for " (show_name gum))).
Proof.
  assert (H1 : r_items apple_then_three_gums
               = [line_of apple_id 1] ++ line_of gum_id 3 :: [])
    by reflexivity.
  assert (H2 : stored_product (Some shop) (line_product_id (line_of gum_id 3))
               = Some gum) by reflexivity.
  assert (H3 : requested (line_of gum_id 3) = Some 3) by reflexivity.
  assert (H4 : stock_or_0 gum < 3) by reflexivity.
  refine (conj H1 (conj H2 (conj H3 (conj H4 _)))).
  exact (create_sale_insufficient_stock memory_insert apple_then_three_gums
           shop [line_of apple_id 1] [] (line_of gum_id 3) gum 3 H1 H2 H3 H4).
Defined.

(** Three gums with two in stock, after a line for a product that does
    not exist: the answer is the 404 of the first line. *)
Lemma create_sale_insufficient_stock_counterexample :
  ~ any_short_line_is_insufficient_stock memory_insert (Some shop)
      unknown_then_three_gums.
Proof.
  intros H.
  destruct (H (line_of gum_id 3) gum 3 (or_intror (or_introl eq_refl))
              eq_refl eq_refl eq_refl) as (db' & tr & E).
  vm_compute in E. discriminate E.
Qed.

Lemma create_sale_persists_first_witness :
  let run := create_sale failing_insert three_apples (Some shop) in
  run = (db_after run, calls_of run, result_of run) /\
  (forall pre o d post,
      calls_of run = pre ++ UpdateOneInc o d :: post ->
      exists sl new_id db1,
        In (CreateDocument "sale" (DSale sl)) pre /\
        failing_insert (Some shop) "sale" (DSale sl) = Some (new_id, db1)) /\
  (forall sl,
      In (CreateDocument "sale" (DSale sl)) (calls_of run) ->
      failing_insert (Some shop) "sale" (DSale sl) = None ->
      db_after run = Some shop /\ result_of run = Raise StorageError /\
      forallb (fun e => negb (is_inc e)) (calls_of run) = true).
Proof.
  intros run.
  assert (H : run = (db_after run, calls_of run, result_of run))
    by reflexivity.
  split; [exact H|].
  exact (create_sale_persists_first failing_insert three_apples (Some shop)
           (db_after run) (calls_of run) (result_of run) H).
Defined.

(** With a store that refuses the write of the sale, the write is
    attempted after the lookup, and nothing follows it. *)
Example three_apples_not_written :
  create_sale failing_insert three_apples (Some shop)
  = (Some shop,
     [FindOneActive apple_id;
      CreateDocument "sale" (DSale (sale_of three_apples
        [{| product_id := apple_id; i_name := "Apple"; i_sku := "A1";
            i_price := 2.5%float; quantity := 3; subtotal := 7.5%float |}]
        7.5%float))],
     Raise StorageError).
Proof. vm_compute. reflexivity. Qed.

Lemma create_sale_payment_witness :
  (exists db' tr resp,
      create_sale memory_insert three_apples (Some shop) = (db', tr, Ok resp) /\
      resp_paid resp = r_paid three_apples /\
      resp_change resp = round2 (r_paid three_apples - resp_total resp) /\
      (resp_total resp <=? r_paid three_apples)%float = true /\
      exists sl,
        In (CreateDocument "sale" (DSale sl)) tr /\
        total sl = resp_total resp /\ paid sl = r_paid three_apples /\
        change sl = resp_change resp) /\
  create_sale memory_insert three_apples_for_five (Some shop)
  = (Some shop, [FindOneActive apple_id],
     Raise (HTTPException 400 "Paid amount is less than total")).
Proof.
  split.
  - do 3 eexists. split; [vm_compute; reflexivity|].
    eapply (proj1 (create_sale_payment memory_insert three_apples (Some shop))).
    vm_compute. reflexivity.
  - eapply (proj2 (create_sale_payment memory_insert three_apples_for_five
                     (Some shop))).
    + discriminate.
    + vm_compute. reflexivity.
    + vm_compute. reflexivity.
Defined.

Lemma create_sale_not_found_witness :
  r_items apple_then_retired = [line_of apple_id 1] ++ line_of retired_id 1 :: [] /\
  line_product_id (line_of retired_id 1) = PidStr retired_id /\
  ObjectId retired_id = Some retired_id /\
  (forall d, In d (product shop) -> d_id d = retired_id ->
             d_active d <> Some true) /\
  exists tr e,
    create_sale memory_insert apple_then_retired (Some shop)
    = (Some shop, tr, Raise e) /\
    forallb is_find tr = true /\
    (forall its tot tr1 qty,
        sale_lines [line_of apple_id 1] [] 0%float (Some shop)
        = (Some shop, tr1, Ok (its, tot)) ->
        requested (line_of retired_id 1) = Some qty ->
        tr = tr1 ++ [FindOneActive retired_id] /\
        e = HTTPException 404 "Product not found or inactive").
Proof.
  assert (H1 : r_items apple_then_retired
               = [line_of apple_id 1] ++ line_of retired_id 1 :: [])
    by reflexivity.
  assert (H2 : line_product_id (line_of retired_id 1) = PidStr retired_id)
    by reflexivity.
  assert (H3 : ObjectId retired_id = Some retired_id) by reflexivity.
  assert (H4 : forall d, In d (product shop) -> d_id d = retired_id ->
                         d_active d <> Some true).
  { intros d [<-|[<-|[<-|[<-|[]]]]] Hid; try discriminate Hid; discriminate. }
  refine (conj H1 (conj H2 (conj H3 (conj H4 _)))).
  exact (create_sale_not_found memory_insert apple_then_retired shop
           [line_of apple_id 1] [] (line_of retired_id 1) retired_id
           retired_id H1 H2 H3 H4).
Defined.

(** A line for a product that does not exist, after a line for three
    gums with two in stock: the answer is the 400 of the first line. *)
Lemma create_sale_not_found_counterexample :
  ~ any_unknown_line_is_not_found memory_insert (Some shop)
      three_gums_then_unknown.
Proof.
  intros H.
  destruct (H (line_of unknown_id 1) unknown_id unknown_id
              (or_intror (or_introl eq_refl)) eq_refl eq_refl eq_refl)
    as (db' & tr & E).
  vm_compute in E. discriminate E.
Qed.

Lemma update_stock_increments_witness :
  ObjectId apple_id = Some apple_id /\
  (forall d,
      product_by_id shop apple_id = Some d ->
      exists l1 l2,
        product shop = l1 ++ d :: l2 /\
        (forall x, In x l1 -> d_id x <> apple_id) /\
        update_stock apple_id {| delta := -12 |} (Some shop)
        = (Some {| product := l1 ++ inc_stock (-12) d :: l2;
                   sale := sale shop |},
           [UpdateOneInc apple_id (-12); FindOneById apple_id],
           Ok (inc_stock (-12) d)) /\
        d_stock (inc_stock (-12) d) = Some (stock_or_0 d + -12)) /\
  (product_by_id shop apple_id = None ->
   update_stock apple_id {| delta := -12 |} (Some shop)
   = (Some shop, [UpdateOneInc apple_id (-12)],
      Raise (HTTPException 404 "Product not found"))) /\
  ((exists db' tr,
       update_stock apple_id {| delta := -12 |} (Some shop)
       = (db', tr, Raise (HTTPException 404 "Product not found")))
   <-> product_by_id shop apple_id = None).
Proof.
  assert (H : ObjectId apple_id = Some apple_id) by reflexivity.
  exact (conj H (update_stock_increments apple_id apple_id (-12) shop H)).
Defined.

(** Twelve apples taken off a stock of ten: the stock is -2 afterwards;
    and an identity no product has: the 404, the store as before. *)
Example apples_below_zero :
  update_stock apple_id {| delta := -12 |} (Some shop)
  = (Some {| product := inc_stock (-12) apple :: [gum; retired; loose];
             sale := [] |},
     [UpdateOneInc apple_id (-12); FindOneById apple_id],
     Ok (inc_stock (-12) apple)) /\
  d_stock (inc_stock (-12) apple) = Some (-2) /\
  update_stock unknown_id {| delta := 1 |} (Some shop)
  = (Some shop, [UpdateOneInc unknown_id 1],
     Raise (HTTPException 404 "Product not found")).
Proof. repeat split. Qed.

(** A second product under the SKU of the retired one, and a pear under
    a new SKU: the same NotImplementedError for both, on the shop. *)
Example products_not_created :
  create_product memory_insert second_retired (Some shop)
  = (Some shop, [], Raise NotImplementedError) /\
  create_product memory_insert pear (Some shop)
  = (Some shop, [], Raise NotImplementedError).
Proof. split; reflexivity. Qed.

Lemma create_sale_empty_witness :
  r_items no_line = [] /\
  ge0 (r_paid no_line) = true /\
  exists new_id db',
    memory_insert (Some shop) "sale"
      (DSale {| items := []; total := 0%float; paid := r_paid no_line;
                change := round2 (r_paid no_line);
                customer_name := r_customer_name no_line;
                student_ref := r_student_ref no_line;
                payment_method := r_payment_method no_line |})
    = Some (new_id, db') /\
    create_sale memory_insert no_line (Some shop)
    = (db',
       [CreateDocument "sale"
          (DSale {| items := []; total := 0%float; paid := r_paid no_line;
                    change := round2 (r_paid no_line);
                    customer_name := r_customer_name no_line;
                    student_ref := r_student_ref no_line;
                    payment_method := r_payment_method no_line |})],
       Ok {| resp_id := new_id; resp_total := 0%float;
             resp_paid := r_paid no_line;
             resp_change := round2 (r_paid no_line) |}).
Proof.
  assert (H1 : r_items no_line = []) by reflexivity.
  assert (H2 : ge0 (r_paid no_line) = true) by reflexivity.
  refine (conj H1 (conj H2 _)).
  do 2 eexists.
  split; [reflexivity|].
  exact (create_sale_empty memory_insert no_line shop _ _ H1 H2 eq_refl).
Defined.

Lemma create_sale_missing_stock_witness :
  exists tr1 its tot,
    r_items apple_then_loose = [line_of apple_id 1] ++ line_of loose_id 1 :: [] /\
    sale_lines [line_of apple_id 1] [] 0%float (Some shop)
    = (Some shop, tr1, Ok (its, tot)) /\
    stored_product (Some shop) (line_product_id (line_of loose_id 1))
    = Some loose /\
    d_stock loose = None /\
    requested (line_of loose_id 1) = Some 1 /\
    1 <= 1 /\
    stock_or_0 loose = 0 /\
    sale_line (line_of loose_id 1) (Some shop)
    = (Some shop, [FindOneActive (d_id loose)],
       Raise (HTTPException 400
                (String.append "Insufficient stock for " (show_name loose)))) /\
    create_sale memory_insert apple_then_loose (Some shop)
    = (Some shop, tr1 ++ [FindOneActive (d_id loose)],
       Raise (HTTPException 400
                (String.append "Insufficient stock for " (show_name loose)))).
Proof.
  do 3 eexists.
  split; [reflexivity|]. split; [vm_compute; reflexivity|].
  split; [reflexivity|]. split; [reflexivity|]. split; [reflexivity|].
  split; [lia|].
  eapply (create_sale_missing_stock memory_insert apple_then_loose shop
            [line_of apple_id 1] [] (line_of loose_id 1) loose 1).
  - reflexivity.
  - vm_compute. reflexivity.
  - reflexivity.
  - reflexivity.
  - reflexivity.
  - lia.
Defined.

(** * Further properties of the handlers *)

(** ** Stock adjustments *)

Lemma inc_first_split (o : oid) (dl : Z) (docs : list ProductDoc) :
  inc_first o dl docs
  = (fst (inc_first o dl docs),
     match find (fun d => String.eqb (d_id d) o) docs with
     | Some _ => 1
     | None => 0
     end).
Proof.
  induction docs as [|d rest IH]; simpl; [reflexivity|].
  destruct (String.eqb (d_id d) o); [reflexivity|].
  rewrite IH. simpl. destruct (find _ rest); reflexivity.
Qed.

(** What a lookup by identity finds after a [$inc]: the incremented
    document under the identity of the update, and what was there
    before under any other. *)
Lemma find_inc_first (o o' : oid) (dl : Z) (docs : list ProductDoc) :
  find (fun d => String.eqb (d_id d) o) (fst (inc_first o' dl docs))
  = if String.eqb o' o
    then option_map (inc_stock dl) (find (fun d => String.eqb (d_id d) o) docs)
    else find (fun d => String.eqb (d_id d) o) docs.
Proof.
  induction docs as [|d rest IH]; simpl.
  - destruct (String.eqb o' o); reflexivity.
  - destruct (String.eqb (d_id d) o') eqn:E1; simpl.
    + apply String.eqb_eq in E1. rewrite E1.
      destruct (String.eqb o' o); reflexivity.
    + destruct (inc_first o' dl rest) as [rest' n] eqn:E2. simpl in *.
      destruct (String.eqb (d_id d) o) eqn:E3; [|exact IH].
      apply String.eqb_eq in E3. rewrite E3 in E1.
      rewrite String.eqb_sym, E1. reflexivity.
Qed.

Lemma inc_first_ids (o : oid) (dl : Z) (docs : list ProductDoc) :
  map d_id (fst (inc_first o dl docs)) = map d_id docs.
Proof.
  induction docs as [|d rest IH]; simpl; [reflexivity|].
  destruct (String.eqb (d_id d) o); simpl; [reflexivity|].
  destruct (inc_first o dl rest) as [rest' n]. simpl in *. now rewrite IH.
Qed.

Lemma inc_stock_twice (d1 d2 : Z) (d : ProductDoc) :
  inc_stock d2 (inc_stock d1 d) = inc_stock (d1 + d2) d.
Proof.
  unfold inc_stock, stock_or_0. simpl. f_equal. f_equal.
  destruct (d_stock d); lia.
Qed.

Lemma inc_first_twice (o : oid) (d1 d2 : Z) (docs : list ProductDoc) :
  fst (inc_first o d2 (fst (inc_first o d1 docs)))
  = fst (inc_first o (d1 + d2) docs).
Proof.
  induction docs as [|d rest IH]; simpl; [reflexivity|].
  destruct (String.eqb (d_id d) o) eqn:E; simpl.
  - rewrite E. simpl. now rewrite inc_stock_twice.
  - destruct (inc_first o d1 rest) as [r1 n1].
    destruct (inc_first o (d1 + d2) rest) as [r12 n12].
    simpl in *. rewrite E.
    destruct (inc_first o d2 r1) as [r2 n2]. simpl in *. now rewrite IH.
Qed.

Lemma inc_stock_zero (d : ProductDoc) :
  d_stock d <> None -> inc_stock 0 d = d.
Proof.
  destruct d as [i n k p st c b a]. unfold inc_stock, stock_or_0. simpl.
  destruct st as [z|]; [|congruence]. intros _. do 2 f_equal. lia.
Qed.

Lemma inc_first_zero (o : oid) (docs : list ProductDoc) (d : ProductDoc) :
  find (fun x => String.eqb (d_id x) o) docs = Some d ->
  d_stock d <> None ->
  fst (inc_first o 0 docs) = docs.
Proof.
  induction docs as [|c rest IH]; simpl; [discriminate|].
  destruct (String.eqb (d_id c) o).
  - intros [= ->] Hs. simpl. now rewrite inc_stock_zero.
  - intros Hf Hs. destruct (inc_first o 0 rest) as [r n]. simpl in *.
    now rewrite (IH Hf Hs).
Qed.

(** [update_stock] on a configured store, for a well-formed identity. *)
Lemma update_stock_eq (pid : string) (o : oid) (dl : Z) (s : Store) :
  ObjectId pid = Some o ->
  update_stock pid {| delta := dl |} (Some s)
  = match product_by_id s o with
    | Some d =>
        (Some {| product := fst (inc_first o dl (product s)); sale := sale s |},
         [UpdateOneInc o dl; FindOneById o], Ok (inc_stock dl d))
    | None =>
        (Some s, [UpdateOneInc o dl],
         Raise (HTTPException 404 "Product not found"))
    end.
Proof.
  intros Ho. unfold update_stock, product_by_id. run. rewrite Ho.
  unfold update_one_inc, find_one_by_id. run.
  rewrite (inc_first_split o dl (product s)).
  pose proof (find_inc_first o o dl (product s)) as Hf.
  rewrite String.eqb_refl in Hf.
  destruct (find _ (product s)) as [d|] eqn:E; simpl.
  - rewrite Hf. reflexivity.
  - rewrite (inc_first_none _ _ _ E). simpl. now rewrite store_eta.
Qed.

(** X1: an identity that bson refuses (a string that is not 24
    characters long, or that [bytes.fromhex] does not read) is answered
    with the 400 "Invalid product id" before any store call, whatever
    the delta, and the store is as before. *)
Theorem update_stock_malformed_id (pid : string) (payload : StockUpdate)
    (s : Store) :
  ObjectId pid = None ->
  update_stock pid payload (Some s)
  = (Some s, [], Raise (HTTPException 400 "Invalid product id")).
Proof.
  intros H. unfold update_stock. run. now rewrite H.
Qed.

(** X2: two stock adjustments of the same product, one after the other,
    leave the store and return the product that one adjustment by the
    sum of the two deltas does. *)
Theorem update_stock_twice (pid : string) (o : oid) (d1 d2 : Z) (s : Store)
    (d : ProductDoc) :
  ObjectId pid = Some o ->
  product_by_id s o = Some d ->
  exists s1,
    db_after (update_stock pid {| delta := d1 |} (Some s)) = Some s1 /\
    db_after (update_stock pid {| delta := d2 |} (Some s1))
    = db_after (update_stock pid {| delta := d1 + d2 |} (Some s)) /\
    result_of (update_stock pid {| delta := d2 |} (Some s1))
    = result_of (update_stock pid {| delta := d1 + d2 |} (Some s)) /\
    result_of (update_stock pid {| delta := d1 + d2 |} (Some s))
    = Ok (inc_stock (d1 + d2) d).
Proof.
  intros Ho Hd.
  exists {| product := fst (inc_first o d1 (product s)); sale := sale s |}.
  rewrite !(update_stock_eq _ _ _ _ Ho), Hd.
  assert (H1 : product_by_id
                 {| product := fst (inc_first o d1 (product s)); sale := sale s |} o
               = Some (inc_stock d1 d)).
  { unfold product_by_id in *. simpl.
    rewrite find_inc_first, String.eqb_refl, Hd. reflexivity. }
  rewrite H1. unfold db_after, result_of. simpl.
  rewrite inc_first_twice, inc_stock_twice. auto.
Qed.

(** X3: adjusting the stock of a product by a delta and then by the
    opposite delta gives back the store it started from, when the
    product has a stock field; when it has none, the two adjustments
    leave it with a stock of 0. *)
Theorem update_stock_undo (pid : string) (o : oid) (dl : Z) (s : Store)
    (d : ProductDoc) :
  ObjectId pid = Some o ->
  product_by_id s o = Some d ->
  exists s1 s2,
    db_after (update_stock pid {| delta := dl |} (Some s)) = Some s1 /\
    db_after (update_stock pid {| delta := - dl |} (Some s1)) = Some s2 /\
    (d_stock d <> None -> s2 = s) /\
    (d_stock d = None ->
     exists d2, product_by_id s2 o = Some d2 /\ d_stock d2 = Some 0 /\
                same_but_stock d d2).
Proof.
  intros Ho Hd.
  exists {| product := fst (inc_first o dl (product s)); sale := sale s |}.
  exists {| product := fst (inc_first o 0 (product s)); sale := sale s |}.
  rewrite !(update_stock_eq _ _ _ _ Ho), Hd.
  assert (H1 : product_by_id
                 {| product := fst (inc_first o dl (product s)); sale := sale s |} o
               = Some (inc_stock dl d)).
  { unfold product_by_id in *. simpl.
    rewrite find_inc_first, String.eqb_refl, Hd. reflexivity. }
  rewrite H1. unfold db_after. simpl. rewrite inc_first_twice.
  replace (dl + - dl) with 0 by lia.
  split; [reflexivity|]. split; [reflexivity|]. split.
  - intros Hs. unfold product_by_id in Hd.
    rewrite (inc_first_zero _ _ _ Hd Hs). apply store_eta.
  - intros Hs. exists (inc_stock 0 d). unfold product_by_id in *. simpl.
    rewrite find_inc_first, String.eqb_refl, Hd. simpl.
    unfold stock_or_0. rewrite Hs. repeat split.
Qed.

(** X4: whatever its outcome, [update_stock] leaves the sales, the
    identities of the products and their order as they are, and every
    product with another identity untouched. *)
Theorem update_stock_frame (pid : string) (payload : StockUpdate) (s : Store)
    (db' : Database) (tr : list event) (r : result ProductDoc) :
  update_stock pid payload (Some s) = (db', tr, r) ->
  exists s',
    db' = Some s' /\ sale s' = sale s /\
    map d_id (product s') = map d_id (product s) /\
    (forall o o', ObjectId pid = Some o -> o' <> o ->
                  product_by_id s' o' = product_by_id s o').
Proof.
  destruct payload as [dl].
  destruct (ObjectId pid) as [o|] eqn:Ho.
  - rewrite (update_stock_eq _ _ _ _ Ho).
    destruct (product_by_id s o) as [d|]; intros [= <- <- <-].
    + eexists. split; [reflexivity|]. simpl.
      split; [reflexivity|]. split; [apply inc_first_ids|].
      intros o1 o' [= <-] Hne. unfold product_by_id. simpl.
      rewrite find_inc_first.
      destruct (String.eqb o o') eqn:E; [|reflexivity].
      apply String.eqb_eq in E. congruence.
    + exists s. repeat split.
  - unfold update_stock. run. rewrite Ho. run. intros [= <- <- <-].
    exists s. repeat split.
Qed.

(** ** Sales *)

Lemma new_SaleItem_ok (pid : string) (name sku : option string)
    (price : float) (qty : Z) (sub : float) (db db' : Database)
    (t : list event) (it : SaleItem) :
  new_SaleItem pid name sku price qty sub db = (db', t, Ok it) ->
  name = Some (i_name it) /\ sku = Some (i_sku it) /\
  product_id it = pid /\ i_price it = price /\ quantity it = qty /\
  subtotal it = sub /\ 1 <= qty /\ ge0 price = true /\ ge0 sub = true.
Proof.
  unfold new_SaleItem. destruct name, sku; run; try discriminate.
  destruct (ge0 price) eqn:E1, (1 <=? qty) eqn:E2, (ge0 sub) eqn:E3; run;
    try discriminate.
  intros [= <- <- <-]. simpl. repeat split; auto. lia.
Qed.

(** The item of a turn of the loop that passes: the full snapshot of its
    line, built after one lookup, under an identity that was parsed. *)
Lemma sale_line_snapshot (line : Line) (db db' : Database) (t : list event)
    (it : SaleItem) :
  sale_line line db = (db', t, Ok it) ->
  line_snapshot db line it /\
  t = [FindOneActive (product_id it)] /\
  exists str, ObjectId str = Some (product_id it).
Proof.
  unfold sale_line, int_of_quantity, lookup_product, find_one_active,
    find_one_active_new, line_snapshot, requested, stored_product.
  destruct (line_quantity line), (line_product_id line) as [|str|shown];
    run; try discriminate;
    try (destruct db as [s|]; run; discriminate);
    destruct (ObjectId str) as [o|] eqn:Ho; run; try discriminate;
    destruct db as [s|]; run; try discriminate;
    destruct (find _ (product s)) as [prod|] eqn:Ef; run; try discriminate;
    destruct (stock_or_0 prod <? _) eqn:Es; run; try discriminate;
    destruct (new_SaleItem _ _ _ _ _ _ _) as [[db1 t1] r1] eqn:E;
    intros [= <- <- ->];
    pose proof (new_SaleItem_inv _ _ _ _ _ _ _ _ _ _ E) as (_ & -> & _);
    apply new_SaleItem_ok in E
      as (Hn & Hk & Hp & Hpr & Hq & Hsub & Hge & Hg1 & Hg2);
    apply find_some in Ef as Hfind; destruct Hfind as [_ Hfind];
    apply andb_prop in Hfind as [Hid _]; apply String.eqb_eq in Hid;
    apply Z.ltb_ge in Es;
    (split; [|split]);
    [ exists prod; unfold raw_amount; rewrite Hp, Hpr, Hq, Hsub;
      repeat split; auto; try lia; congruence
    | rewrite Hp, Hid; reflexivity
    | exists str; rewrite Hp, Hid; exact Ho
    | exists prod; unfold raw_amount; rewrite Hp, Hpr, Hq, Hsub;
      repeat split; auto; try lia; congruence
    | rewrite Hp, Hid; reflexivity
    | exists str; rewrite Hp, Hid; exact Ho ].
Qed.

Lemma sale_lines_snapshot (lines : list Line) :
  forall its tot db db' t its' tot',
    sale_lines lines its tot db = (db', t, Ok (its', tot')) ->
    exists new,
      its' = its ++ new /\
      Forall2 (line_snapshot db) lines new /\
      t = calls_for_lookup new /\
      Forall (fun it => exists str, ObjectId str = Some (product_id it)) new.
Proof.
  induction lines as [|line rest IH]; intros its tot db db' t its' tot'; simpl.
  - run. intros [= <- <- <- <-]. exists []. rewrite app_nil_r. auto.
  - unfold bind.
    destruct (sale_line line db) as [[db1 t1] [it|e]] eqn:E1; [|discriminate].
    pose proof (sale_line_snapshot _ _ _ _ _ E1) as (Hs & -> & Ho).
    apply sale_line_pure in E1 as [-> _].
    destruct (sale_lines rest _ _ db) as [[db2 t2] r2] eqn:E2.
    intros [= <- <- ->]. apply IH in E2 as (new & -> & F & -> & Fo).
    exists (it :: new). rewrite <- app_assoc. simpl. auto.
Qed.

(** The deduction loop never fails on items whose identities parse to
    themselves, on a configured store: it makes one [$inc] per item, in
    order, by the opposite of the quantity. *)
Lemma deduct_stock_run (its : list SaleItem) :
  Forall (fun it => ObjectId (product_id it) = Some (product_id it)) its ->
  forall s,
    deduct_stock its (Some s)
    = (Some {| product := deduct_all its (product s); sale := sale s |},
       calls_for_deduct its, Ok tt).
Proof.
  induction 1 as [|it rest Ho F IH]; intros s; simpl.
  - run. now rewrite store_eta.
  - rewrite Ho. unfold bind, update_one_inc. 
    rewrite (inc_first_split (product_id it) (- quantity it) (product s)).
    rewrite IH. reflexivity.
Qed.

(** The deduction loop raises no HTTP error. *)
Lemma deduct_stock_raise (its : list SaleItem) :
  forall db db' t e,
    deduct_stock its db = (db', t, Raise e) -> e = TypeError \/ e = InvalidId.
Proof.
  induction its as [|it rest IH]; intros db db' t e; simpl.
  - run. discriminate.
  - destruct (ObjectId (product_id it)) as [o|]; run;
      [|intros [= <- <- <-]; auto].
    unfold update_one_inc. destruct db as [s|]; run;
      [|intros [= <- <- <-]; auto].
    destruct (inc_first o (- quantity it) (product s)) as [docs n].
    destruct (deduct_stock rest _) as [[db2 t2] [u|e2]] eqn:E;
      [discriminate|].
    apply IH in E. intros [= <- <- <-]. exact E.
Qed.

(** What a lookup by identity finds once a list of items is deducted:
    the document that was there, with the units sold taken off its
    stock and nothing else changed. *)
Lemma find_deduct_all (o : oid) (its : list SaleItem) :
  forall docs d,
    find (fun x => String.eqb (d_id x) o) docs = Some d ->
    exists d',
      find (fun x => String.eqb (d_id x) o) (deduct_all its docs) = Some d' /\
      stock_or_0 d' = stock_or_0 d - sold o its /\
      same_but_stock d d' /\
      (sold o its = 0 -> Forall (fun it => 0 < quantity it) its -> d' = d).
Proof.
  induction its as [|it rest IH]; intros docs d Hd; simpl.
  - exists d. unfold same_but_stock. repeat split; auto. lia.
  - unfold deduct_all in *. simpl.
    pose proof (find_inc_first o (product_id it) (- quantity it) docs) as Hf.
    rewrite Hd in Hf.
    destruct (String.eqb (product_id it) o) eqn:E; simpl in Hf.
    + destruct (IH _ _ Hf) as (d' & H1 & H2 & H3 & H4).
      exists d'. split; [exact H1|]. split.
      * rewrite H2. unfold inc_stock, stock_or_0. simpl. lia.
      * split; [exact H3|].
        intros H0 F. exfalso. inversion F as [|? ? Hq F']; subst.
        assert (0 <= sold o rest).
        { clear - F'. induction F' as [|x l Hx F' IHF]; simpl; [lia|].
          destruct (String.eqb (product_id x) o); lia. }
        lia.
    + destruct (IH _ _ Hf) as (d' & H1 & H2 & H3 & H4).
      exists d'. split; [exact H1|]. split; [rewrite H2; lia|].
      split; [exact H3|]. intros H0 F. inversion F; subst.
      apply H4; [lia|assumption].
Qed.

(** When the deduction loop goes through on items whose identities were
    parsed, each of them parses to itself. *)
Lemma deduct_stock_ok_fixed (its : list SaleItem) :
  Forall (fun it => exists str, ObjectId str = Some (product_id it)) its ->
  forall db db' t,
    deduct_stock its db = (db', t, Ok tt) ->
    Forall (fun it => ObjectId (product_id it) = Some (product_id it)) its.
Proof.
  induction 1 as [|it rest [str Hs] F IH]; intros db db' t; simpl;
    [constructor|].
  destruct (ObjectId (product_id it)) as [o|] eqn:Ho; [|run; discriminate].
  rewrite (ObjectId_fixed _ _ _ Hs Ho) in Ho.
  unfold bind, update_one_inc. destruct db as [s|]; [|discriminate].
  destruct (inc_first o (- quantity it) (product s)) as [docs n].
  destruct (deduct_stock rest _) as [[db2 t2] [[]|e]] eqn:E; [|discriminate].
  intros _. constructor; [exact Ho|]. exact (IH _ _ _ E).
Qed.

Lemma deduct_stock_ok_calls (its : list SaleItem) (db db' : Database)
    (t : list event) :
  Forall (fun it => exists str, ObjectId str = Some (product_id it)) its ->
  deduct_stock its db = (db', t, Ok tt) ->
  t = calls_for_deduct its.
Proof.
  intros Fp Hd. pose proof (deduct_stock_ok_fixed _ Fp _ _ _ Hd) as F.
  revert Hd. destruct db as [s|].
  - rewrite (deduct_stock_run _ F). now intros [= <- <-].
  - destruct F as [|it rest Ho F]; simpl.
    + run. now intros [= <- <-].
    + rewrite Ho. run. discriminate.
Qed.

Lemma Forall2_In_r {A B : Type} (R : A -> B -> Prop) (l1 : list A)
    (l2 : list B) (y : B) :
  Forall2 R l1 l2 -> In y l2 -> exists x, In x l1 /\ R x y.
Proof.
  induction 1 as [|a b l1 l2 Hab F IH]; simpl; [contradiction|].
  intros [<-|Hin]; [eauto|].
  destruct (IH Hin) as (x & Hx & Hr). eauto.
Qed.

Lemma Forall2_In_l {A B : Type} (R : A -> B -> Prop) (l1 : list A)
    (l2 : list B) (x : A) :
  Forall2 R l1 l2 -> In x l1 -> exists y, In y l2 /\ R x y.
Proof.
  induction 1 as [|a b l1 l2 Hab F IH]; simpl; [contradiction|].
  intros [<-|Hin]; [eauto|].
  destruct (IH Hin) as (y & Hy & Hr). eauto.
Qed.

Lemma NoDup_map_eq {A B : Type} (f : A -> B) (l : list A) (a b : A) :
  NoDup (map f l) -> In a l -> In b l -> f a = f b -> a = b.
Proof.
  induction l as [|c l IH]; simpl; [contradiction|].
  intros Hn Ha Hb Hf. inversion Hn as [|? ? Hc Hn']; subst.
  destruct Ha as [->|Ha], Hb as [->|Hb]; auto.
  - exfalso. apply Hc. rewrite Hf. now apply in_map.
  - exfalso. apply Hc. rewrite <- Hf. now apply in_map.
Qed.

Lemma sold_absent (o : oid) (its : list SaleItem) :
  ~ In o (map product_id its) -> sold o its = 0.
Proof.
  induction its as [|it rest IH]; simpl; [reflexivity|].
  intros H. destruct (String.eqb (product_id it) o) eqn:E.
  - apply String.eqb_eq in E. exfalso. apply H. now left.
  - rewrite IH; [reflexivity|]. intros Hin. apply H. now right.
Qed.

(** When no two items are for the same product, the units sold of a
    product are the quantity of its one item at most. *)
Lemma sold_once (o : oid) (its : list SaleItem) (n : Z) :
  NoDup (map product_id its) ->
  0 <= n ->
  (forall it, In it its -> product_id it = o -> quantity it <= n) ->
  sold o its <= n.
Proof.
  induction its as [|it rest IH]; simpl; intros Hn H0 Hq; [lia|].
  inversion Hn as [|? ? Hc Hn']; subst.
  destruct (String.eqb (product_id it) o) eqn:E.
  - apply String.eqb_eq in E. rewrite <- E, (sold_absent _ _ Hc).
    specialize (Hq it (or_introl eq_refl) E). lia.
  - specialize (IH Hn' H0 (fun x Hx => Hq x (or_intror Hx))). lia.
Qed.

Lemma stored_product_in (s : Store) (pid : pid_value) (prod : ProductDoc) :
  stored_product (Some s) pid = Some prod -> In prod (product s).
Proof.
  unfold stored_product. destruct pid as [|str|shown]; try discriminate.
  destruct (ObjectId str); [|discriminate].
  intros H. now apply find_some in H.
Qed.

Lemma sale_line_malformed (line : Line) (db : Database) (str : string)
    (qty : Z) :
  line_product_id line = PidStr str ->
  ObjectId str = None ->
  requested line = Some qty ->
  sale_line line db
  = (db, [], Raise (HTTPException 400
                      (String.append "Invalid product id: " str))).
Proof.
  intros Hl Hm Hq. unfold sale_line, requested in *. rewrite Hl.
  destruct (line_quantity line); try discriminate; run;
    rewrite Hm; reflexivity.
Qed.

Lemma sale_line_default (line : Line) (db : Database) :
  sale_line (with_default_quantity line) db = sale_line line db.
Proof.
  unfold sale_line, with_default_quantity. simpl.
  destruct (line_quantity line); reflexivity.
Qed.

Lemma sale_lines_default (lines : list Line) :
  forall its tot db,
    sale_lines (map with_default_quantity lines) its tot db
    = sale_lines lines its tot db.
Proof.
  induction lines as [|line rest IH]; intros its tot db; simpl;
    [reflexivity|].
  unfold bind. rewrite sale_line_default.
  destruct (sale_line line db) as [[db1 t1] [it|e]]; [|reflexivity].
  now rewrite IH.
Qed.

Section MoreSales.

Variable ins : Database -> string -> document -> option (string * Database).

(** X5: whenever [create_sale] answers with an HTTP error, whatever its
    status, the store is as before and the store calls made are reads
    only: nothing was written and no stock was updated. *)
Theorem create_sale_http_error_clean (request : SaleRequest)
    (db db' : Database) (tr : list event) (code : Z) (detail : string) :
  create_sale ins request db = (db', tr, Raise (HTTPException code detail)) ->
  db' = db /\ forallb is_find tr = true.
Proof.
  destruct db as [s|];
    [|rewrite create_sale_without_db; intros [= <- <- _ _]; auto].
  rewrite create_sale_eq.
  destruct (sale_lines _ _ _ _) as [[db0 t1] [[its tot]|e]] eqn:E;
    apply sale_lines_pure in E as [-> F].
  - destruct (r_paid request <? round2 tot)%float;
      [intros [= <- <- _ _]; auto|].
    destruct (sale_fields_valid request tot); [|discriminate].
    cbv zeta. destruct (ins _ _ _) as [[new_id db1]|]; [|discriminate].
    destruct (deduct_stock its db1) as [[db2 t3] [u|e]] eqn:Hd;
      [discriminate|].
    apply deduct_stock_raise in Hd. intros [= _ _ He].
    destruct Hd; congruence.
  - intros [= <- <- _]. auto.
Qed.

(** X6: a line whose product id is a string that bson refuses (not 24
    characters long, or not read by [bytes.fromhex]), reached after
    lines that pass and with a quantity that converts, ends the request
    with the 400 "Invalid product id: <id>": no lookup is made for it
    and the store is as before. *)
Theorem create_sale_invalid_reference (request : SaleRequest) (s : Store)
    (pre post : list Line) (line : Line) (str : string) (qty : Z)
    (tr1 : list event) (its : list SaleItem) (tot : float) :
  r_items request = pre ++ line :: post ->
  sale_lines pre [] 0%float (Some s) = (Some s, tr1, Ok (its, tot)) ->
  line_product_id line = PidStr str ->
  ObjectId str = None ->
  requested line = Some qty ->
  create_sale ins request (Some s)
  = (Some s, tr1,
     Raise (HTTPException 400 (String.append "Invalid product id: " str))).
Proof.
  intros Hr Hpre Hl Hm Hq.
  pose proof (sale_line_malformed _ (Some s) _ _ Hl Hm Hq) as H.
  rewrite create_sale_eq, Hr, (sale_lines_stop _ post _ _ _ _ _ _ _ Hpre H).
  now rewrite app_nil_r.
Qed.

(** X7: the store calls of a successful sale are, in this order: one
    lookup per line, the write of the sale, and one stock update per
    item by the opposite of its quantity; there are as many items as
    lines. *)
Theorem create_sale_calls (request : SaleRequest) (db db' : Database)
    (tr : list event) (resp : SaleResponse) :
  create_sale ins request db = (db', tr, Ok resp) ->
  exists sl,
    tr = calls_for_lookup (items sl)
         ++ CreateDocument "sale" (DSale sl) :: calls_for_deduct (items sl) /\
    List.length (items sl) = List.length (r_items request).
Proof.
  intros H.
  apply create_sale_ok_inv in H
    as (s & t1 & its & tot & new_id & db1 & t3 & -> & E & _ & _ & _ & Hd & -> & ->).
  apply sale_lines_snapshot in E as (new & -> & F2 & -> & Fo).
  simpl in *. apply (deduct_stock_ok_calls _ _ _ _ Fo) in Hd as ->.
  exists (sale_of request new tot). simpl. split; [reflexivity|].
  symmetry. exact (Forall2_length F2).
Qed.

(** X8: every item of a successful sale is the snapshot of the active
    product its line refers to: it carries the identity, name, SKU and
    price of that product, and its quantity is the one asked for, at
    least 1 and at most the stock of the product. *)
Theorem create_sale_items_snapshot (request : SaleRequest) (db db' : Database)
    (tr : list event) (resp : SaleResponse) :
  create_sale ins request db = (db', tr, Ok resp) ->
  exists sl,
    In (CreateDocument "sale" (DSale sl)) tr /\
    Forall2 (line_snapshot db) (r_items request) (items sl).
Proof.
  intros H.
  apply create_sale_ok_inv in H
    as (s & t1 & its & tot & new_id & db1 & t3 & -> & E & _ & _ & _ & _ & -> & ->).
  apply sale_lines_snapshot in E as (new & -> & F2 & _ & _).
  exists (sale_of request ([] ++ new) tot).
  split; [apply in_or_app; right; left; reflexivity|exact F2].
Qed.

(** X9: a request with a line that asks for a quantity of 0 or less
    never succeeds: it fails, with reads only and the store as before. *)
Theorem create_sale_nonpositive_quantity (request : SaleRequest) (s : Store)
    (line : Line) (qty : Z) :
  In line (r_items request) ->
  requested line = Some qty ->
  qty <= 0 ->
  exists tr e,
    create_sale ins request (Some s) = (Some s, tr, Raise e) /\
    forallb is_find tr = true.
Proof.
  intros Hin Hq Hle. rewrite create_sale_eq.
  destruct (sale_lines _ _ _ _) as [[db0 t1] [[its tot]|e]] eqn:E.
  - exfalso. apply sale_lines_snapshot in E as (new & _ & F2 & _ & _).
    destruct (Forall2_In_l _ _ _ _ F2 Hin) as (it & _ & prod & _ & Hr & H).
    assert (quantity it = qty) by congruence. lia.
  - apply sale_lines_pure in E as [_ F]. eauto.
Qed.

(** X10: the amounts of a successful sale pass the constraints of
    [Sale]: the total, the amount paid and the change returned are all
    greater than or equal to zero, and the amount paid is the one of
    the request. *)
Theorem create_sale_amounts (request : SaleRequest) (db db' : Database)
    (tr : list event) (resp : SaleResponse) :
  create_sale ins request db = (db', tr, Ok resp) ->
  ge0 (resp_total resp) = true /\
  ge0 (resp_change resp) = true /\
  resp_paid resp = r_paid request /\
  ge0 (r_paid request) = true.
Proof.
  intros H.
  apply create_sale_ok_inv in H
    as (s & t1 & its & tot & new_id & db1 & t3 & _ & _ & _ & Hv & _ & _ & _ & ->).
  unfold sale_fields_valid in Hv.
  apply andb_prop in Hv as [Hv Hc]. apply andb_prop in Hv as [Ht Hp].
  simpl. auto.
Qed.

(** X11: a line without a quantity is a line for one unit: writing the
    default out changes nothing in what [create_sale] does. *)
Theorem create_sale_default_quantity (request : SaleRequest) (db : Database) :
  create_sale ins (with_default_quantities request) db
  = create_sale ins request db.
Proof.
  destruct db as [s|]; [|reflexivity].
  rewrite !create_sale_eq. simpl r_items. rewrite sale_lines_default.
  reflexivity.
Qed.

(** X12: after a successful sale whose write leaves the products alone,
    the product collection is the one before with the stock of every
    item deducted in turn: a product keeps its place and its other
    fields, and its stock is down by the units the items take of it. *)
Theorem create_sale_stock_accounting (request : SaleRequest) (s : Store)
    (db' : Database) (tr : list event) (resp : SaleResponse) :
  sale_write_keeps_products ins ->
  create_sale ins request (Some s) = (db', tr, Ok resp) ->
  exists s' sl,
    db' = Some s' /\
    In (CreateDocument "sale" (DSale sl)) tr /\
    product s' = deduct_all (items sl) (product s) /\
    (forall o d,
        product_by_id s o = Some d ->
        exists d',
          product_by_id s' o = Some d' /\
          stock_or_0 d' = stock_or_0 d - sold o (items sl) /\
          same_but_stock d d' /\
          (sold o (items sl) = 0 -> d' = d)).
Proof.
  intros Hk H.
  apply create_sale_ok_inv in H
    as (s0 & t1 & its & tot & new_id & db1 & t3 & [= <-] & E & _ & _ & Hi & Hd & -> & ->).
  apply sale_lines_snapshot in E as (new & -> & F2 & _ & Fo). simpl in *.
  destruct (Hk _ _ _ _ Hi) as (s1 & -> & Hp).
  rewrite (deduct_stock_run _ (deduct_stock_ok_fixed _ Fo _ _ _ Hd)) in Hd.
  injection Hd as <- _.
  eexists. exists (sale_of request new tot).
  split; [reflexivity|].
  split; [apply in_or_app; right; left; reflexivity|].
  simpl. rewrite Hp. split; [reflexivity|].
  intros o d Hd. unfold product_by_id in *. simpl.
  destruct (find_deduct_all o new _ _ Hd) as (d' & H1 & H2 & H3 & H4).
  exists d'. repeat split; auto; try apply H3.
  intros H0. apply H4; [exact H0|].
  clear - F2. induction F2 as [|l it ls its' Hs F2 IH]; constructor; auto.
  destruct Hs as (prod & _ & _ & _ & _ & _ & _ & _ & Hq & _). lia.
Qed.

(** X13: when the products of the store have distinct identities and no
    two items of a successful sale are for the same product, the sale
    drives no stock below zero: a product whose stock was not negative
    before has a stock that is not negative after. *)
Theorem create_sale_stock_nonneg (request : SaleRequest) (s : Store)
    (db' : Database) (tr : list event) (resp : SaleResponse) :
  sale_write_keeps_products ins ->
  NoDup (map d_id (product s)) ->
  create_sale ins request (Some s) = (db', tr, Ok resp) ->
  exists s' sl,
    db' = Some s' /\
    In (CreateDocument "sale" (DSale sl)) tr /\
    (NoDup (map product_id (items sl)) ->
     forall o d d',
       product_by_id s o = Some d -> 0 <= stock_or_0 d ->
       product_by_id s' o = Some d' -> 0 <= stock_or_0 d').
Proof.
  intros Hk Hn H.
  apply create_sale_ok_inv in H
    as (s0 & t1 & its & tot & new_id & db1 & t3 & [= <-] & E & _ & _ & Hi & Hd & -> & ->).
  apply sale_lines_snapshot in E as (new & -> & F2 & _ & Fo). simpl in *.
  destruct (Hk _ _ _ _ Hi) as (s1 & -> & Hp).
  rewrite (deduct_stock_run _ (deduct_stock_ok_fixed _ Fo _ _ _ Hd)) in Hd.
  injection Hd as <- _.
  eexists. exists (sale_of request new tot).
  split; [reflexivity|].
  split; [apply in_or_app; right; left; reflexivity|].
  simpl. intros Hnd o d d' Hd H0 Hd'. unfold product_by_id in *. simpl in Hd'.
  rewrite Hp in Hd'.
  destruct (find_deduct_all o new _ _ Hd) as (d2 & H1 & H2 & _).
  rewrite H1 in Hd'. injection Hd' as <-. rewrite H2.
  assert (Hs : sold o new <= stock_or_0 d); [|lia].
  apply sold_once; auto.
  intros it Hit Hpid.
  destruct (Forall2_In_r _ _ _ _ F2 Hit)
    as (line & _ & prod & Hsp & _ & Hid & _ & _ & _ & _ & Hq & _).
  apply stored_product_in in Hsp.
  apply find_some in Hd as [Hdin Hdo]. apply String.eqb_eq in Hdo.
  assert (prod = d) by (apply (NoDup_map_eq d_id (product s)); auto; congruence).
  subst prod. lia.
Qed.

End MoreSales.

(** * The further properties on the shop *)

Lemma memory_insert_keeps_products : sale_write_keeps_products memory_insert.
Proof.
  intros s sl new_id db1. simpl. intros [= <- <-].
  eexists. split; reflexivity.
Qed.

Lemma shop_ids_distinct : NoDup (map d_id (product shop)).
Proof.
  simpl. repeat constructor; simpl; intuition discriminate.
Qed.

Lemma update_stock_malformed_id_witness :
  ObjectId "not-an-id" = None /\
  update_stock "not-an-id" {| delta := 5 |} (Some shop)
  = (Some shop, [], Raise (HTTPException 400 "Invalid product id")).
Proof.
  assert (H : ObjectId "not-an-id" = None) by reflexivity.
  exact (conj H (update_stock_malformed_id "not-an-id" {| delta := 5 |} shop H)).
Defined.

(** Twenty-four characters that [bytes.fromhex] reads as eight bytes,
    the whitespace skipped: bson takes them, the update is sent to the
    store, and the answer is the 404. *)
Example spaced_id_is_looked_up :
  ObjectId spaced_id = Some "65a1f00000000001" /\
  update_stock spaced_id {| delta := 5 |} (Some shop)
  = (Some shop, [UpdateOneInc "65a1f00000000001" 5],
     Raise (HTTPException 404 "Product not found")) /\
  create_sale memory_insert (request_of [line_of spaced_id 1] 10%float)
    (Some shop)
  = (Some shop, [FindOneActive "65a1f00000000001"],
     Raise (HTTPException 404 "Product not found or inactive")).
Proof. repeat split. Qed.

Lemma update_stock_twice_witness :
  ObjectId apple_id = Some apple_id /\
  product_by_id shop apple_id = Some apple /\
  exists s1,
    db_after (update_stock apple_id {| delta := 3 |} (Some shop)) = Some s1 /\
    db_after (update_stock apple_id {| delta := -5 |} (Some s1))
    = db_after (update_stock apple_id {| delta := 3 + -5 |} (Some shop)) /\
    result_of (update_stock apple_id {| delta := -5 |} (Some s1))
    = result_of (update_stock apple_id {| delta := 3 + -5 |} (Some shop)) /\
    result_of (update_stock apple_id {| delta := 3 + -5 |} (Some shop))
    = Ok (inc_stock (3 + -5) apple).
Proof.
  assert (H1 : ObjectId apple_id = Some apple_id) by reflexivity.
  assert (H2 : product_by_id shop apple_id = Some apple) by reflexivity.
  exact (conj H1 (conj H2
           (update_stock_twice apple_id apple_id 3 (-5) shop apple H1 H2))).
Defined.

Lemma update_stock_undo_witness :
  ObjectId loose_id = Some loose_id /\
  product_by_id shop loose_id = Some loose /\
  exists s1 s2,
    db_after (update_stock loose_id {| delta := 4 |} (Some shop)) = Some s1 /\
    db_after (update_stock loose_id {| delta := - 4 |} (Some s1)) = Some s2 /\
    (d_stock loose <> None -> s2 = shop) /\
    (d_stock loose = None ->
     exists d2, product_by_id s2 loose_id = Some d2 /\ d_stock d2 = Some 0 /\
                same_but_stock loose d2).
Proof.
  assert (H1 : ObjectId loose_id = Some loose_id) by reflexivity.
  assert (H2 : product_by_id shop loose_id = Some loose) by reflexivity.
  exact (conj H1 (conj H2
           (update_stock_undo loose_id loose_id 4 shop loose H1 H2))).
Defined.

(** Four apples added and taken off again: the shop as it was. *)
Example apples_back_and_forth :
  db_after (update_stock apple_id {| delta := -4 |}
              (db_after (update_stock apple_id {| delta := 4 |} (Some shop))))
  = Some shop.
Proof. reflexivity. Qed.

Lemma update_stock_frame_witness :
  let run := update_stock apple_id {| delta := 4 |} (Some shop) in
  run = (db_after run, calls_of run, result_of run) /\
  exists s',
    db_after run = Some s' /\ sale s' = sale shop /\
    map d_id (product s') = map d_id (product shop) /\
    (forall o o', ObjectId apple_id = Some o -> o' <> o ->
                  product_by_id s' o' = product_by_id shop o').
Proof.
  intros run.
  assert (H : run = (db_after run, calls_of run, result_of run))
    by reflexivity.
  exact (conj H (update_stock_frame apple_id {| delta := 4 |} shop
                   (db_after run) (calls_of run) (result_of run) H)).
Defined.

Lemma create_sale_http_error_clean_witness :
  let run := create_sale memory_insert apple_then_three_gums (Some shop) in
  run = (db_after run, calls_of run,
         Raise (HTTPException 400 "Insufficient stock for Gum")) /\
  db_after run = Some shop /\ forallb is_find (calls_of run) = true.
Proof.
  intros run.
  assert (H : run = (db_after run, calls_of run,
                     Raise (HTTPException 400 "Insufficient stock for Gum")))
    by reflexivity.
  exact (conj H (create_sale_http_error_clean memory_insert
                   apple_then_three_gums (Some shop) (db_after run)
                   (calls_of run) 400 "Insufficient stock for Gum" H)).
Defined.

Lemma create_sale_invalid_reference_witness :
  exists tr1 its tot,
    r_items apple_then_malformed
    = [line_of apple_id 1] ++ line_of "not-an-id" 1 :: [] /\
    sale_lines [line_of apple_id 1] [] 0%float (Some shop)
    = (Some shop, tr1, Ok (its, tot)) /\
    line_product_id (line_of "not-an-id" 1) = PidStr "not-an-id" /\
    ObjectId "not-an-id" = None /\
    requested (line_of "not-an-id" 1) = Some 1 /\
    create_sale memory_insert apple_then_malformed (Some shop)
    = (Some shop, tr1,
       Raise (HTTPException 400
                (String.append "Invalid product id: " "not-an-id"))).
Proof.
  do 3 eexists.
  split; [reflexivity|]. split; [vm_compute; reflexivity|].
  split; [reflexivity|]. split; [reflexivity|].
  split; [reflexivity|].
  eapply (create_sale_invalid_reference memory_insert apple_then_malformed
            shop [line_of apple_id 1] [] (line_of "not-an-id" 1)
            "not-an-id" 1).
  - reflexivity.
  - vm_compute. reflexivity.
  - reflexivity.
  - reflexivity.
  - reflexivity.
Defined.

Lemma create_sale_calls_witness :
  exists db' tr resp,
    create_sale memory_insert apple_and_gum (Some shop) = (db', tr, Ok resp) /\
    exists sl,
      tr = calls_for_lookup (items sl)
           ++ CreateDocument "sale" (DSale sl) :: calls_for_deduct (items sl) /\
      List.length (items sl) = List.length (r_items apple_and_gum).
Proof.
  do 3 eexists. split; [vm_compute; reflexivity|].
  eapply (create_sale_calls memory_insert apple_and_gum (Some shop)).
  vm_compute. reflexivity.
Defined.

Lemma create_sale_items_snapshot_witness :
  exists db' tr resp,
    create_sale memory_insert apple_and_gum (Some shop) = (db', tr, Ok resp) /\
    exists sl,
      In (CreateDocument "sale" (DSale sl)) tr /\
      Forall2 (line_snapshot (Some shop)) (r_items apple_and_gum) (items sl).
Proof.
  do 3 eexists. split; [vm_compute; reflexivity|].
  eapply (create_sale_items_snapshot memory_insert apple_and_gum (Some shop)).
  vm_compute. reflexivity.
Defined.

Lemma create_sale_nonpositive_quantity_witness :
  In (line_of gum_id 0) (r_items apple_then_none) /\
  requested (line_of gum_id 0) = Some 0 /\
  0 <= 0 /\
  exists tr e,
    create_sale memory_insert apple_then_none (Some shop)
    = (Some shop, tr, Raise e) /\
    forallb is_find tr = true.
Proof.
  assert (H1 : In (line_of gum_id 0) (r_items apple_then_none))
    by (right; left; reflexivity).
  assert (H2 : requested (line_of gum_id 0) = Some 0) by reflexivity.
  assert (H3 : 0 <= 0) by lia.
  exact (conj H1 (conj H2 (conj H3
           (create_sale_nonpositive_quantity memory_insert apple_then_none
              shop (line_of gum_id 0) 0 H1 H2 H3)))).
Defined.

(** No unit of gum asked for: the constraint on the quantity of
    [SaleItem] refuses the line. *)
Example no_gum_is_refused :
  create_sale memory_insert apple_then_none (Some shop)
  = (Some shop, [FindOneActive apple_id; FindOneActive gum_id],
     Raise ValidationError).
Proof. vm_compute. reflexivity. Qed.

Lemma create_sale_amounts_witness :
  exists db' tr resp,
    create_sale memory_insert three_apples (Some shop) = (db', tr, Ok resp) /\
    ge0 (resp_total resp) = true /\
    ge0 (resp_change resp) = true /\
    resp_paid resp = r_paid three_apples /\
    ge0 (r_paid three_apples) = true.
Proof.
  do 3 eexists. split; [vm_compute; reflexivity|].
  eapply (create_sale_amounts memory_insert three_apples (Some shop)).
  vm_compute. reflexivity.
Defined.

(** One apple, by default. *)
Example apple_by_default_sold :
  exists db' tr resp,
    create_sale memory_insert apple_by_default (Some shop) = (db', tr, Ok resp) /\
    tr
    = [FindOneActive apple_id;
       CreateDocument "sale" (DSale (sale_of apple_by_default
         [{| product_id := apple_id; i_name := "Apple"; i_sku := "A1";
             i_price := 2.5%float; quantity := 1; subtotal := 2.5%float |}]
         2.5%float));
       UpdateOneInc apple_id (-1)].
Proof. do 3 eexists. split; vm_compute; reflexivity. Qed.

Lemma create_sale_stock_accounting_witness :
  sale_write_keeps_products memory_insert /\
  exists db' tr resp,
    create_sale memory_insert gum_twice_two (Some shop) = (db', tr, Ok resp) /\
    exists s' sl,
      db' = Some s' /\
      In (CreateDocument "sale" (DSale sl)) tr /\
      product s' = deduct_all (items sl) (product shop) /\
      (forall o d,
          product_by_id shop o = Some d ->
          exists d',
            product_by_id s' o = Some d' /\
            stock_or_0 d' = stock_or_0 d - sold o (items sl) /\
            same_but_stock d d' /\
            (sold o (items sl) = 0 -> d' = d)).
Proof.
  split; [exact memory_insert_keeps_products|].
  do 3 eexists. split; [vm_compute; reflexivity|].
  eapply (create_sale_stock_accounting memory_insert gum_twice_two shop).
  - exact memory_insert_keeps_products.
  - vm_compute. reflexivity.
Defined.

(** Two lines of two gums each, with two gums in stock: each line passes
    the check on its own, and the stock ends at -2. *)
Example gums_oversold :
  exists s' tr resp,
    create_sale memory_insert gum_twice_two (Some shop) = (Some s', tr, Ok resp) /\
    option_map d_stock (product_by_id s' gum_id) = Some (Some (-2)).
Proof. do 3 eexists. split; vm_compute; reflexivity. Qed.

Lemma create_sale_stock_nonneg_witness :
  sale_write_keeps_products memory_insert /\
  NoDup (map d_id (product shop)) /\
  exists db' tr resp,
    create_sale memory_insert apple_and_gum (Some shop) = (db', tr, Ok resp) /\
    exists s' sl,
      db' = Some s' /\
      In (CreateDocument "sale" (DSale sl)) tr /\
      (NoDup (map product_id (items sl)) ->
       forall o d d',
         product_by_id shop o = Some d -> 0 <= stock_or_0 d ->
         product_by_id s' o = Some d' -> 0 <= stock_or_0 d').
Proof.
  split; [exact memory_insert_keeps_products|].
  split; [exact shop_ids_distinct|].
  do 3 eexists. split; [vm_compute; reflexivity|].
  eapply (create_sale_stock_nonneg memory_insert apple_and_gum shop).
  - exact memory_insert_keeps_products.
  - exact shop_ids_distinct.
  - vm_compute. reflexivity.
Defined.
